(** * Dataset persistence and configuration layer: a shallow embedding

    The development follows the three source files of the course toolkit:

    - [utils/dataset_config.py]  -> [Module Registry]
    - [utils/data_loader.py]     -> [Module Store]
    - [labs/lab0_trying_vibe_coding/problem.py] -> [Module Lab0]

    Python dictionaries are finite maps ([gmap]), Python exceptions are a
    value of type [exn] carried by [result], and the functions of the
    data loader, which read and write the file system, print and call the
    dataset hub, are computations in a state-and-exception monad over an
    explicit [World]. *)

From Stdlib Require Import QArith Ascii String.
From Stdlib.Strings Require Import Byte.
From stdpp Require Import base option strings list gmap sets.

Open Scope string_scope.

(** ** Python runtime: exceptions and results *)

Module Py.

(** The exception classes that the modelled code can meet.  All of them
    derive from [Exception]; the payload is the text of [str(e)]. *)
Inductive exn : Type :=
| KeyError (msg : string)
| TypeError (msg : string)
| AttributeError (msg : string)
| ValueError (msg : string)
| FileNotFoundError (msg : string)
| IsADirectoryError (msg : string)
| ParserError (msg : string)
| ConnectionError (msg : string).

Definition str_of_exn (e : exn) : string :=
  match e with
  | KeyError m | TypeError m | AttributeError m | ValueError m | FileNotFoundError m
  | IsADirectoryError m | ParserError m | ConnectionError m => m
  end.

Inductive result (A : Type) : Type :=
| Ok (a : A)
| Raise (e : exn).
Arguments Ok {A} a.
Arguments Raise {A} e.

Definition is_ok {A} (r : result A) : bool :=
  match r with Ok _ => true | Raise _ => false end.

#[export] Instance result_ret : MRet result := fun _ a => Ok a.
#[export] Instance result_bind : MBind result := fun _ _ f r =>
  match r with
  | Ok a => f a
  | Raise e => Raise e
  end.

(** Values stored in the configuration dictionaries: strings and lists of
    strings. *)
Inductive pyval : Type :=
| VStr (s : string)
| VList (l : list string).

#[export] Instance pyval_eq_dec : EqDecision pyval.
Proof. solve_decision. Defined.

(** [d[k]]: indexing raises [KeyError] on a missing key. *)
Definition dict_getitem {V} (d : gmap string V) (k : string) : result V :=
  match d !! k with
  | Some v => Ok v
  | None => Raise (KeyError k)
  end.

(** [d.get(k, dflt)]: the default replaces a missing key. *)
Definition dict_get {V} (d : gmap string V) (k : string) (dflt : V) : V :=
  default dflt (d !! k).

(** [os.path] functions accept a [str] only. *)
Definition as_path (v : pyval) : result string :=
  match v with
  | VStr s => Ok s
  | VList _ =>
      Raise (TypeError "expected str, bytes or os.PathLike object, not list")
  end.

(** A [str] method looked up on a value that is not a [str]. *)
Definition str_method (name : string) (v : pyval) : result string :=
  match v with
  | VStr s => Ok s
  | VList _ =>
      Raise (AttributeError ("'list' object has no attribute '" ++ name ++ "'"))
  end.

End Py.
Export Py.

(** ** utils/dataset_config.py *)

Module Registry.

Definition tmdb_config : gmap string pyval :=
  list_to_map
    [ ("name", VStr "TMDB 5000 Movies");
      ("path", VStr "data/processed/tmdb_embedded.parquet");
      ("text_col", VStr "overview");
      ("title_col", VStr "title");
      ("image_col", VStr "local_poster_path");
      ("image_embedding_col", VStr "image_embedding");
      ("text_embedding_col", VStr "embedding");
      ("label_cols", VList ["genres"]);
      ("metadata_cols",
        VList ["title"; "overview"; "genres"; "release_date"; "vote_average"]);
      ("visualization_col", VStr "genres");
      ("item_name", VStr "Movie") ].

Definition airbnb_config : gmap string pyval :=
  list_to_map
    [ ("name", VStr "NYC Airbnb Listings");
      ("path", VStr "data/processed/airbnb_embedded.parquet");
      ("text_col", VStr "description");
      ("title_col", VStr "name");
      ("image_col", VStr "local_picture_path");
      ("image_embedding_col", VStr "image_embedding");
      ("text_embedding_col", VStr "embedding");
      ("label_cols",
        VList ["neighbourhood"; "neighbourhood_group"; "property_type"; "room_type"]);
      ("metadata_cols",
        VList ["name"; "description"; "neighbourhood"; "price"; "review_scores_rating"]);
      ("visualization_col", VStr "neighbourhood");
      ("item_name", VStr "Listing") ].

Definition DATASETS : gmap string (gmap string pyval) :=
  <["tmdb" := tmdb_config]> (<["airbnb" := airbnb_config]> ∅).

(** [return DATASETS.get(dataset_name, DATASETS["tmdb"])]: the default
    argument is evaluated (by indexing) before [get] is called. *)
Definition get_dataset_config (dataset_name : string)
  : result (gmap string pyval) :=
  dflt ← dict_getitem DATASETS "tmdb";
  mret (dict_get DATASETS dataset_name dflt).

(** The standardized keys of a configuration, with the kind of value each
    one holds. *)
Definition str_keys : list string :=
  [ "name"; "path"; "text_col"; "title_col"; "image_col";
    "image_embedding_col"; "text_embedding_col"; "visualization_col";
    "item_name" ].
Definition list_keys : list string := [ "label_cols"; "metadata_cols" ].

Definition holds_str (c : gmap string pyval) (k : string) : bool :=
  match c !! k with
  | Some (VStr s) => negb (String.eqb s "")
  | _ => false
  end.
Definition holds_list (c : gmap string pyval) (k : string) : bool :=
  match c !! k with
  | Some (VList l) => negb (bool_decide (l = []))
  | _ => false
  end.

(** A record is fully populated when every standardized key is present
    with a value of its kind, and it has no other key. *)
Definition fully_populated (c : gmap string pyval) : bool :=
  forallb (holds_str c) str_keys && forallb (holds_list c) list_keys
  && bool_decide (size c = length str_keys + length list_keys)%nat.

End Registry.

(** ** Paths and strings: [os.path.dirname] and [str.replace] *)

Module PyStr.

Definition is_slash (c : ascii) : bool := Ascii.eqb c "/".

Definition nonempty (s : string) : bool :=
  match s with "" => false | String _ _ => true end.

(** [p[:p.rfind("/") + 1]]: the prefix that ends at the last slash. *)
Fixpoint upto_last_slash (p : string) : string :=
  match p with
  | "" => ""
  | String c rest =>
      let h := upto_last_slash rest in
      if nonempty h then String c h
      else if is_slash c then String c "" else ""
  end.

Fixpoint all_slashes (s : string) : bool :=
  match s with
  | "" => true
  | String c rest => is_slash c && all_slashes rest
  end.

(** [s.rstrip("/")] *)
Fixpoint rstrip_slash (s : string) : string :=
  match s with
  | "" => ""
  | String c rest =>
      let r := rstrip_slash rest in
      if negb (nonempty r) && is_slash c then "" else String c r
  end.

(** [posixpath.dirname]:
    head = p[:i]; if head and head != sep*len(head): head = head.rstrip(sep) *)
Definition dirname (p : string) : string :=
  let head := upto_last_slash p in
  if nonempty head && negb (all_slashes head) then rstrip_slash head
  else head.

(** The directories [os.makedirs(name)] walks through: [name] and its
    successive heads, leaf first. *)
Fixpoint parents (fuel : nat) (name : string) : list string :=
  match fuel with
  | O => []
  | S fuel' =>
      let head := dirname name in
      if negb (nonempty head) || String.eqb head name then [name]
      else name :: parents fuel' head
  end.

(** [s.replace(old, new)] for a non-empty [old]: every occurrence, left to
    right, without overlap.  [skip] counts the characters of a match that
    are still to be dropped. *)
Fixpoint replace_from (skip : nat) (old new s : string) : string :=
  match s with
  | "" => ""
  | String c rest =>
      match skip with
      | S k => replace_from k old new rest
      | O =>
          if String.prefix old s
          then new ++ replace_from (String.length old - 1) old new rest
          else String c (replace_from 0 old new rest)
      end
  end.

(** With an empty [old], [new] goes before every character and at the end. *)
Fixpoint replace_empty (new s : string) : string :=
  match s with
  | "" => new
  | String c rest => new ++ String c (replace_empty new rest)
  end.

Definition str_replace (s old new : string) : string :=
  if nonempty old then replace_from 0 old new s else replace_empty new s.

End PyStr.
Export PyStr.

(** ** utils/data_loader.py *)

Module Store.
Import Registry.

(** *** Tables *)

(** A cell of a table.  Floating-point numbers are kept as their 64-bit
    patterns; an embedding is a vector of such patterns. *)
Inductive cell : Type :=
| CNull
| CInt (z : Z)
| CStr (s : string)
| CFloat (bits : N)
| CVector (bits : list N).

(** A [pandas.DataFrame] with string column labels: the length of its
    index and its columns in order.  Labels may repeat, as in pandas. *)
Record DataFrame : Type := mkDataFrame {
  df_nrows : nat;
  df_columns : list (string * list cell)
}.

(** [pd.DataFrame()] *)
Definition empty_frame : DataFrame := mkDataFrame 0 [].

(** [df.columns] *)
Definition labels (df : DataFrame) : list string := (df_columns df).*1.

(** [k in df.columns] *)
Definition has_column (k : string) (df : DataFrame) : bool :=
  bool_decide (k ∈ labels df).

Definition columns_labelled (k : string) (cols : list (string * list cell))
  : list (string * list cell) :=
  filter (λ c, c.1 = k) cols.

(** The columns selected by a list of labels: for each label in turn,
    every column that carries it; [KeyError] when a label has none. *)
Fixpoint select_columns (keys : list string) (cols : list (string * list cell))
  : result (list (string * list cell)) :=
  match keys with
  | [] => Ok []
  | k :: keys' =>
      match columns_labelled k cols with
      | [] => Raise (KeyError ("['" ++ k ++ "'] not in index"))
      | found => rest ← select_columns keys' cols; mret (found ++ rest)%list
      end
  end.

(** [df[[k1, k2, ...]]] *)
Definition getitem_list (df : DataFrame) (keys : list string) : result DataFrame :=
  cols ← select_columns keys (df_columns df);
  mret (mkDataFrame (df_nrows df) cols).

(** *** The serializers of pandas

    The CSV and Parquet encoders and decoders are not part of the
    repository; the store is defined over any implementation of them. *)
Class Pandas : Type := {
  to_csv_bytes : DataFrame → bool → list byte;     (* table, [index=] flag *)
  read_csv_bytes : list byte → result DataFrame;
  to_parquet_bytes : DataFrame → result (list byte);
  read_parquet_bytes : list byte → result DataFrame;
  (* a directory read as a dataset: the files below it, by path *)
  read_parquet_dataset : gmap string (list byte) → result DataFrame
}.

(** Modelled from the spec: the Parquet writer and reader of pandas, which
    are not part of the repository.  The spec has the processed table
    written "in a format that preserves column data types exactly", so that
    embedding vectors "round-trip bit-for-bit": the writer accepts every
    table and the reader gives back the table that was written. *)
Definition parquet_round_trips (P : Pandas) : Prop :=
  ∀ df : DataFrame,
    ∃ content : list byte,
      to_parquet_bytes df = Ok content ∧ read_parquet_bytes content = Ok df.

(** *** The world the loader acts on

    Regular files and directories, the two output channels (standard
    output and the error boxes of the UI), and the dataset hub with the
    log of the requests sent to it.  Faults of the operating system
    itself (permissions, a full disk, a regular file standing where a
    directory is needed, a directory standing where a file is written) are
    outside the model. *)
Record World : Type := mkWorld {
  files : gmap string (list byte);
  dirs : gset string;
  stdout : list string;
  st_errors : list string;
  hub : string → string → result DataFrame;
  hub_requests : list (string * string)
}.

Definition set_files (f : gmap string (list byte) → gmap string (list byte))
  (w : World) : World :=
  mkWorld (f (files w)) (dirs w) (stdout w) (st_errors w) (hub w) (hub_requests w).
Definition set_dirs (f : gset string → gset string) (w : World) : World :=
  mkWorld (files w) (f (dirs w)) (stdout w) (st_errors w) (hub w) (hub_requests w).
Definition set_stdout (f : list string → list string) (w : World) : World :=
  mkWorld (files w) (dirs w) (f (stdout w)) (st_errors w) (hub w) (hub_requests w).
Definition set_st_errors (f : list string → list string) (w : World) : World :=
  mkWorld (files w) (dirs w) (stdout w) (f (st_errors w)) (hub w) (hub_requests w).
Definition set_hub_requests (f : list (string * string) → list (string * string))
  (w : World) : World :=
  mkWorld (files w) (dirs w) (stdout w) (st_errors w) (hub w) (f (hub_requests w)).

(** *** State-and-exception monad *)

Definition M (A : Type) : Type := World → result A * World.

#[export] Instance M_ret : MRet M := λ _ a w, (Ok a, w).
#[export] Instance M_bind : MBind M := λ _ _ f m w,
  match m w with
  | (Ok a, w') => f a w'
  | (Raise e, w') => (Raise e, w')
  end.

(** A pure computation that may raise. *)
Definition lift {A} (r : result A) : M A := λ w, (r, w).

(** [try: body except Exception as e: handler(e)]; what [body] did to the
    world before raising stays done. *)
Definition try_except {A} (body : M A) (handler : exn → M A) : M A := λ w,
  match body w with
  | (Ok a, w') => (Ok a, w')
  | (Raise e, w') => handler e w'
  end.

Definition print (line : string) : M () := λ w,
  (Ok (), set_stdout (λ out, (out ++ [line])%list) w).

(** [st.error(msg)] *)
Definition st_error (msg : string) : M () := λ w,
  (Ok (), set_st_errors (λ errs, (errs ++ [msg])%list) w).

Definition exists_at (w : World) (path : string) : bool :=
  bool_decide (is_Some (files w !! path)) || bool_decide (path ∈ dirs w).

(** [os.path.exists(path)] *)
Definition path_exists (path : string) : M bool := λ w,
  (Ok (exists_at w path), w).

(** [os.makedirs(name, exist_ok=True)] *)
Definition makedirs (name : string) : M () := λ w,
  if nonempty name
  then (Ok (), set_dirs (λ ds, ds ∪ list_to_set (parents (S (String.length name)) name)) w)
  else (Raise (FileNotFoundError "[Errno 2] No such file or directory: ''"), w).

Definition read_file (path : string) : M (list byte) := λ w,
  match files w !! path with
  | Some content => (Ok content, w)
  | None =>
      if bool_decide (path ∈ dirs w)
      then (Raise (IsADirectoryError ("[Errno 21] Is a directory: '" ++ path ++ "'")), w)
      else (Raise (FileNotFoundError ("[Errno 2] No such file or directory: '" ++ path ++ "'")), w)
  end.

Definition write_file (path : string) (content : list byte) : M () := λ w,
  (Ok (), set_files (λ fs, <[path := content]> fs) w).

(** [load_dataset(repo, split=split)]: one request to the hub. *)
Definition load_dataset (repo split : string) : M DataFrame := λ w,
  (hub w repo split, set_hub_requests (λ log, (log ++ [(repo, split)])%list) w).

(** The files that lie below a directory. *)
Definition files_below (dir : string) (fs : gmap string (list byte))
  : gmap string (list byte) :=
  filter (λ entry, String.prefix (dir ++ "/") entry.1 = true) fs.

(** The path that [config["path"]] resolves to for a dataset, as the
    processed-data functions compute it in their first two lines. *)
Definition processed_path (dataset_name : string) : result string :=
  config ← get_dataset_config dataset_name;
  path ← dict_getitem config "path";
  as_path path.

Section Loader.
Context `{Pandas}.

(** [pd.read_csv(path)] *)
Definition pd_read_csv (path : string) : M DataFrame :=
  content ← read_file path; lift (read_csv_bytes content).

(** [pd.read_parquet(path)]: a regular file is decoded; a directory is read
    as a dataset made of the files below it. *)
Definition pd_read_parquet (path : string) : M DataFrame := λ w,
  match files w !! path with
  | Some content => (read_parquet_bytes content, w)
  | None =>
      if bool_decide (path ∈ dirs w)
      then (read_parquet_dataset (files_below path (files w)), w)
      else (Raise (FileNotFoundError ("[Errno 2] No such file or directory: '" ++ path ++ "'")), w)
  end.

(** [df.to_csv(path, index=index)] *)
Definition df_to_csv (df : DataFrame) (path : string) (index : bool) : M () :=
  write_file path (to_csv_bytes df index).

(** [df.to_parquet(path)] *)
Definition df_to_parquet (df : DataFrame) (path : string) : M () :=
  content ← lift (to_parquet_bytes df); write_file path content.

Definition RAW_DATA_PATH : string := "data/raw/tmdb_5000_movies.csv".

(** The hub hands out tables: [dataset.to_pandas()] is the identity here. *)
Definition load_tmdb_raw : M DataFrame :=
  found ← path_exists RAW_DATA_PATH;
  if (found : bool) then pd_read_csv RAW_DATA_PATH
  else
    print "Raw data not found locally.";;
    print "Downloading TMDB 5000 dataset from Hugging Face...";;
    try_except
      (df ← load_dataset "AiresPucrs/tmdb-5000-movies" "train";
       makedirs (dirname RAW_DATA_PATH);;
       df_to_csv df RAW_DATA_PATH false;;
       print ("✓ Dataset downloaded and cached to " ++ RAW_DATA_PATH);;
       mret df)
      (λ e,
       st_error ("Failed to download dataset: " ++ str_of_exn e);;
       print ("Error details: " ++ str_of_exn e);;
       mret empty_frame).

(** An omitted [dataset_name] argument is [None]; the parameter's default
    is ["tmdb"]. *)
Definition save_processed_data (df : DataFrame) (dataset_name : option string)
  : M () :=
  let dataset_name := default "tmdb" dataset_name in
  config ← lift (get_dataset_config dataset_name);
  path ← lift (dict_getitem config "path");
  path ← lift (as_path path);
  makedirs (dirname path);;
  df_to_parquet df path;;
  print ("✓ Processed data saved to " ++ path).

(** The result is [None] (Python's [None]) or [Some] table. *)
Definition load_processed_data (dataset_name : option string)
  : M (option DataFrame) :=
  let dataset_name := default "tmdb" dataset_name in
  config ← lift (get_dataset_config dataset_name);
  path ← lift (dict_getitem config "path");
  path ← lift (as_path path);
  found ← path_exists path;
  if (found : bool) then df ← pd_read_parquet path; mret (Some df)
  else mret None.

Definition get_splits_path (dataset_name : string) : result string :=
  config ← get_dataset_config dataset_name;
  base_path ← dict_getitem config "path";
  base_path ← str_method "replace" base_path;
  mret (str_replace base_path ".parquet" "_splits.csv").

Definition save_splits (df : DataFrame) (dataset_name : option string) : M () :=
  let dataset_name := default "tmdb" dataset_name in
  path ← lift (get_splits_path dataset_name);
  makedirs (dirname path);;
  if has_column "id" df && has_column "split" df then
    projection ← lift (getitem_list df ["id"; "split"]);
    df_to_csv projection path false;;
    print ("✓ Split assignments saved to " ++ path)
  else
    print "Error: DataFrame must contain 'id' and 'split' columns to save splits.".

Definition load_splits (dataset_name : option string) : M (option DataFrame) :=
  let dataset_name := default "tmdb" dataset_name in
  path ← lift (get_splits_path dataset_name);
  found ← path_exists path;
  if (found : bool) then df ← pd_read_csv path; mret (Some df)
  else mret None.

End Loader.

End Store.

(** ** labs/lab0_trying_vibe_coding/problem.py *)

Module Lab0.

(** The rich comparison [x > y] that the builtin [max] relies on. *)
Class PyOrd (A : Type) : Type := py_gt : A → A → bool.

#[export] Instance Z_ord : PyOrd Z := Z.gtb.

(** A Python number, by the value it denotes.  Every [int] and every
    finite [float] denotes a rational, and Python compares the two kinds
    exactly; a [float] can also be an infinity or NaN. *)
Inductive number : Type :=
| Finite (q : Q)
| PosInf
| NegInf
| NaN.

Definition is_nan (x : number) : bool :=
  match x with NaN => true | _ => false end.

Definition not_nan (x : number) : Prop := is_nan x = false.

Definition Qgtb (p q : Q) : bool := negb (Qle_bool p q).

(** [x > y]: false as soon as one side is NaN. *)
#[export] Instance number_ord : PyOrd number := λ x y,
  match x, y with
  | NaN, _ | _, NaN => false
  | Finite p, Finite q => Qgtb p q
  | PosInf, PosInf => false
  | PosInf, _ => true
  | _, PosInf => false
  | NegInf, _ => false
  | Finite _, NegInf => true
  end.


(** [x == y] *)
Definition number_eqb (x y : number) : bool :=
  match x, y with
  | Finite p, Finite q => Qeq_bool p q
  | PosInf, PosInf | NegInf, NegInf => true
  | _, _ => false
  end.

(** The loop of the builtin [max]: a later item replaces the current
    maximum only when it is strictly greater. *)
Fixpoint max_loop {A} `{PyOrd A} (maxitem : A) (items : list A) : A :=
  match items with
  | [] => maxitem
  | item :: items' =>
      max_loop (if py_gt item maxitem then item else maxitem) items'
  end.

(** [max(iterable)] *)
Definition py_max {A} `{PyOrd A} (items : list A) : result A :=
  match items with
  | [] => Raise (ValueError "max() iterable argument is empty")
  | first :: items' => Ok (max_loop first items')
  end.

(** [return max(prices)].  The list is a mutable object owned by the
    caller: the second component is its content when the call returns. *)
Definition find_max_price (prices : list number) : result number * list number :=
  (py_max prices, prices).

End Lab0.

(** ** Sample data for the examples

    A plain CSV writer (no quoting, integers and strings only) stands for
    pandas in the examples; the theorems hold for every implementation of
    [Pandas]. *)

Module Sample.
Import Store.

Definition newline : string := String (ascii_of_nat 10) "".

Definition digit (n : nat) : ascii := ascii_of_nat (48 + n).

Fixpoint decimal_digits (fuel : nat) (n : N) (acc : string) : string :=
  match fuel with
  | O => acc
  | S fuel' =>
      let acc' := String (digit (N.to_nat (n mod 10))) acc in
      if (n <? 10)%N then acc' else decimal_digits fuel' (n / 10)%N acc'
  end.

Definition decimal (n : N) : string := decimal_digits (S (N.to_nat (N.log2 n))) n "".

Definition render_cell (c : cell) : string :=
  match c with
  | CNull => ""
  | CInt z => if (z <? 0)%Z then "-" ++ decimal (Z.abs_N z) else decimal (Z.abs_N z)
  | CStr s => s
  | CFloat bits => decimal bits
  | CVector bits => String.concat " " (decimal <$> bits)
  end.

Definition render_row (cols : list (string * list cell)) (i : nat) : string :=
  String.concat "," ((λ col, render_cell (nth i col.2 CNull)) <$> cols) ++ newline.

Definition render_csv (df : DataFrame) : string :=
  String.concat "," (labels df) ++ newline
  ++ String.concat "" (render_row (df_columns df) <$> seq 0 (df_nrows df)).

(** The fields of a line, cut at every [sep]. *)
Fixpoint split_on (sep : ascii) (s : string) : list string :=
  match s with
  | "" => [""]
  | String c rest =>
      if Ascii.eqb c sep then "" :: split_on sep rest
      else
        match split_on sep rest with
        | field :: fields => String c field :: fields
        | [] => [String c ""]
        end
  end.

(** The lines of a text; the text after the last newline counts only when
    it is not empty. *)
Definition lines_of (text : string) : list string :=
  filter (λ line, line ≠ "") (split_on (ascii_of_nat 10) text).

(** Every field is read back as a string. *)
Definition parse_csv (text : string) : result DataFrame :=
  match lines_of text with
  | [] => Raise (ParserError "No columns to parse from file")
  | header :: rows =>
      let records := split_on "," <$> rows in
      Ok (mkDataFrame (length rows)
            (imap (λ i label, (label, (λ r, CStr (nth i r "")) <$> records))
               (split_on "," header)))
  end.

#[export] Instance plain_csv : Pandas := {|
  to_csv_bytes df _ := list_byte_of_string (render_csv df);
  read_csv_bytes content := parse_csv (string_of_list_byte content);
  to_parquet_bytes df := Ok (list_byte_of_string (render_csv df));
  read_parquet_bytes content := parse_csv (string_of_list_byte content);
  read_parquet_dataset _ := Raise (ParserError "datasets are not read by the sample")
|}.

(** A machine with nothing on disk and an unreachable hub. *)
Definition offline : World :=
  mkWorld ∅ ∅ [] [] (λ _ _, Raise (ConnectionError "hub unreachable")) [].

(** The same machine with a raw file already cached. *)
Definition raw_text : string := "id,title" ++ newline ++ "11,Alien" ++ newline.

Definition cached : World :=
  set_files (λ fs, <[RAW_DATA_PATH := list_byte_of_string raw_text]> fs) offline.

Definition movies : DataFrame :=
  mkDataFrame 2
    [ ("id", [CInt 11; CInt 12]);
      ("title", [CStr "Alien"; CStr "Brazil"]);
      ("split", [CStr "train"; CStr "test"]) ].

Definition movies_without_split : DataFrame :=
  mkDataFrame 2
    [ ("id", [CInt 11; CInt 12]);
      ("title", [CStr "Alien"; CStr "Brazil"]) ].

(** Two columns carry the label [id], as after a column-wise [concat]. *)
Definition movies_two_ids : DataFrame :=
  mkDataFrame 2
    [ ("id", [CInt 11; CInt 12]);
      ("id", [CInt 21; CInt 22]);
      ("split", [CStr "train"; CStr "test"]) ].

(** A machine with an empty disk whose hub serves [movies]. *)
Definition online : World := mkWorld ∅ ∅ [] [] (λ _ _, Ok movies) [].


(** A writer that loses nothing: the table is numbered (tables are
    countable) and the number is written bit by bit, one byte per bit. *)
#[export] Instance cell_eq_dec : EqDecision cell.
Proof. solve_decision. Defined.

#[export] Instance cell_countable : Countable cell.
Proof.
  refine (inj_countable'
    (λ c, match c with
          | CNull => inl ()
          | CInt z => inr (inl z)
          | CStr s => inr (inr (inl s))
          | CFloat bits => inr (inr (inr (inl bits)))
          | CVector bits => inr (inr (inr (inr bits)))
          end)
    (λ s, match s with
          | inl _ => CNull
          | inr (inl z) => CInt z
          | inr (inr (inl s)) => CStr s
          | inr (inr (inr (inl bits))) => CFloat bits
          | inr (inr (inr (inr bits))) => CVector bits
          end) _).
  by intros [].
Defined.

#[export] Instance DataFrame_eq_dec : EqDecision DataFrame.
Proof. solve_decision. Defined.

#[export] Instance DataFrame_countable : Countable DataFrame.
Proof.
  refine (inj_countable'
    (λ df, (df_nrows df, df_columns df))
    (λ pair, mkDataFrame pair.1 pair.2) _).
  by intros [].
Defined.

Fixpoint bytes_of_positive (p : positive) : list byte :=
  match p with
  | xH => []
  | xO p' => x00 :: bytes_of_positive p'
  | xI p' => x01 :: bytes_of_positive p'
  end.

Fixpoint positive_of_bytes (content : list byte) : positive :=
  match content with
  | [] => xH
  | x00 :: rest => xO (positive_of_bytes rest)
  | _ :: rest => xI (positive_of_bytes rest)
  end.

Definition exact_parquet : Pandas := {|
  to_csv_bytes df _ := list_byte_of_string (render_csv df);
  read_csv_bytes content := parse_csv (string_of_list_byte content);
  to_parquet_bytes df := Ok (bytes_of_positive (encode df));
  read_parquet_bytes content :=
    match decode (positive_of_bytes content) with
    | Some df => Ok df
    | None => Raise (ParserError "not a table")
    end;
  read_parquet_dataset _ := Raise (ParserError "datasets are not read by the sample")
|}.

(** A processed table: each row carries an embedding, a vector of 64-bit
    patterns. *)
Definition embedded_movies : DataFrame :=
  mkDataFrame 2
    [ ("id", [CInt 11; CInt 12]);
      ("title", [CStr "Alien"; CStr "Brazil"]);
      ("embedding",
        [CVector [4607182418800017408; 13830554455654793216; 0]%N;
         CVector [4602678819172646912; 9221120237041090560; 1]%N]) ].

(** A machine whose cached raw file is empty. *)
Definition empty_cache : World :=
  set_files (λ fs, <[RAW_DATA_PATH := []]> fs) offline.

End Sample.

(** * Properties *)

(** ** The registry *)

Section RegistryFacts.
Import Registry.

Lemma DATASETS_lookup_tmdb : DATASETS !! "tmdb" = Some tmdb_config.
Proof. unfold DATASETS. by rewrite lookup_insert_eq. Qed.

Lemma DATASETS_lookup_airbnb : DATASETS !! "airbnb" = Some airbnb_config.
Proof.
  unfold DATASETS. rewrite lookup_insert_ne by done.
  by rewrite lookup_insert_eq.
Qed.

Lemma DATASETS_lookup_other (s : string) :
  s ≠ "tmdb" → s ≠ "airbnb" → DATASETS !! s = None.
Proof.
  intros H1 H2. unfold DATASETS.
  rewrite !lookup_insert_ne by done. apply lookup_empty.
Qed.

(** Whatever the identifier, the lookup lands on one of the two entries or
    on none. *)
Lemma DATASETS_lookup_cases (s : string) :
  DATASETS !! s = Some tmdb_config
  ∨ DATASETS !! s = Some airbnb_config
  ∨ DATASETS !! s = None.
Proof.
  destruct (decide (s = "tmdb")) as [->|H1].
  - left. apply DATASETS_lookup_tmdb.
  - destruct (decide (s = "airbnb")) as [->|H2].
    + right; left. apply DATASETS_lookup_airbnb.
    + right; right. by apply DATASETS_lookup_other.
Qed.

Lemma get_dataset_config_unfold (s : string) :
  get_dataset_config s = Ok (default tmdb_config (DATASETS !! s)).
Proof.
  unfold get_dataset_config, dict_getitem. rewrite DATASETS_lookup_tmdb.
  reflexivity.
Qed.

Lemma get_dataset_config_cases (s : string) :
  get_dataset_config s = Ok tmdb_config
  ∨ get_dataset_config s = Ok airbnb_config.
Proof.
  rewrite get_dataset_config_unfold.
  destruct (DATASETS_lookup_cases s) as [-> | [-> | ->]]; auto.
Qed.

Lemma tmdb_fully_populated : fully_populated tmdb_config = true.
Proof. vm_compute. reflexivity. Qed.

Lemma airbnb_fully_populated : fully_populated airbnb_config = true.
Proof. vm_compute. reflexivity. Qed.

(** C1: for every identifier string, [get_dataset_config] returns a
    record (it never raises and never yields an absent value), the record
    is fully populated, and when the identifier is not a key of
    [DATASETS] the record is exactly the one of ["tmdb"]. *)
Theorem get_dataset_config_total (dataset_name : string) :
  ∃ config : gmap string pyval,
    get_dataset_config dataset_name = Ok config
    ∧ fully_populated config = true
    ∧ (DATASETS !! dataset_name = None →
       config = tmdb_config
       ∧ get_dataset_config dataset_name = get_dataset_config "tmdb").
Proof.
  rewrite !get_dataset_config_unfold, DATASETS_lookup_tmdb.
  destruct (DATASETS_lookup_cases dataset_name) as [E | [E | E]];
    rewrite E; simpl; eexists; (split; [reflexivity |]).
  - split; [apply tmdb_fully_populated | discriminate].
  - split; [apply airbnb_fully_populated | discriminate].
  - split; [apply tmdb_fully_populated | done].
Qed.

Lemma get_dataset_config_total_witness :
  DATASETS !! "books" = None
  ∧ DATASETS !! "" = None
  ∧ get_dataset_config "books" = Ok tmdb_config
  ∧ get_dataset_config "" = Ok tmdb_config.
Proof.
  assert (Hb : DATASETS !! "books" = None) by (by apply DATASETS_lookup_other).
  assert (He : DATASETS !! "" = None) by (by apply DATASETS_lookup_other).
  split; [exact Hb |]. split; [exact He |].
  destruct (get_dataset_config_total "books") as (c & Hc & _ & Hd).
  destruct (get_dataset_config_total "") as (c' & Hc' & _ & Hd').
  destruct (Hd Hb) as [-> _]. destruct (Hd' He) as [-> _].
  split; assumption.
Defined.

End RegistryFacts.

(** ** The maximum of a list of prices *)

Section MaxFacts.
Import Lab0.
Context {A : Type} `{PyOrd A}.

(** Whatever the comparison does, the loop returns one of the items. *)
Lemma max_loop_In (maxitem : A) (items : list A) :
  In (max_loop maxitem items) (maxitem :: items).
Proof.
  revert maxitem. induction items as [|item items IH]; intros maxitem.
  - left. reflexivity.
  - cbn [max_loop].
    destruct (IH (if py_gt item maxitem then item else maxitem)) as [E|E].
    + rewrite <- E. destruct (py_gt item maxitem); simpl; auto.
    + right. right. exact E.
Qed.

(** The items on which the comparison behaves as an order; [x <= y] is read
    as "x is not greater than y". *)
Variable ordered : A → Prop.
Hypothesis gt_asym :
  ∀ x y : A, ordered x → ordered y → py_gt x y = true → py_gt y x = false.
Hypothesis not_gt_trans :
  ∀ x y z : A, ordered x → ordered y → ordered z →
    py_gt x y = false → py_gt y z = false → py_gt x z = false.

Lemma not_gt_refl (x : A) : ordered x → py_gt x x = false.
Proof.
  intros Hx. destruct (py_gt x x) eqn:E; [| reflexivity].
  rewrite <- E at 1. by apply gt_asym.
Qed.

Lemma max_loop_upper (maxitem : A) (items : list A) (x : A) :
  Forall ordered (maxitem :: items) →
  In x (maxitem :: items) → py_gt x (max_loop maxitem items) = false.
Proof.
  revert maxitem x. induction items as [|item items IH]; intros maxitem x Hord Hx.
  - destruct Hx as [<- | []]. apply not_gt_refl. by apply Forall_cons in Hord as [? _].
  - cbn [max_loop].
    apply Forall_cons in Hord as [Hm Hord].
    apply Forall_cons in Hord as [Hi Hitems].
    set (m' := if py_gt item maxitem then item else maxitem).
    assert (Hm' : ordered m') by (subst m'; by destruct (py_gt item maxitem)).
    assert (Hord' : Forall ordered (m' :: items)) by (by constructor).
    assert (Hmax : ordered (max_loop m' items)).
    { eapply Forall_forall; [exact Hord' |].
      apply list_elem_of_In, max_loop_In. }
    assert (Hle_m : py_gt maxitem m' = false).
    { subst m'. destruct (py_gt item maxitem) eqn:E;
        [by apply gt_asym | by apply not_gt_refl]. }
    assert (Hle_i : py_gt item m' = false).
    { subst m'. destruct (py_gt item maxitem) eqn:E;
        [by apply not_gt_refl | exact E]. }
    destruct Hx as [<- | [<- | Hx]].
    + apply not_gt_trans with m'; auto. apply IH; [exact Hord' | by left].
    + apply not_gt_trans with m'; auto. apply IH; [exact Hord' | by left].
    + apply IH; [exact Hord' | by right].
Qed.

End MaxFacts.

Section PriceFacts.
Import Lab0.

Lemma Qgtb_false (x y : Q) : Qgtb x y = false ↔ (x <= y)%Q.
Proof. unfold Qgtb. rewrite negb_false_iff. apply Qle_bool_iff. Qed.

Lemma Qgtb_true (x y : Q) : Qgtb x y = true ↔ (y < x)%Q.
Proof.
  unfold Qgtb. rewrite negb_true_iff. split.
  - intros Hle. destruct (Qlt_le_dec y x) as [Hlt | Hge]; [exact Hlt |].
    apply Qle_bool_iff in Hge. congruence.
  - intros Hlt. destruct (Qle_bool x y) eqn:E; [| reflexivity].
    apply Qle_bool_iff in E. by apply Qlt_not_le in Hlt.
Qed.

(** Away from NaN, [>] is the strict part of a total order. *)
Lemma number_gt_asym (x y : number) : py_gt x y = true → py_gt y x = false.
Proof.
  destruct x as [p| | |], y as [q| | |]; cbn; try done.
  rewrite Qgtb_true, Qgtb_false. apply Qlt_le_weak.
Qed.

Lemma number_not_gt_trans (x y z : number) :
  not_nan x → not_nan y → not_nan z →
  py_gt x y = false → py_gt y z = false → py_gt x z = false.
Proof.
  unfold not_nan.
  destruct x as [p| | |], y as [q| | |], z as [r| | |]; cbn; try done.
  rewrite !Qgtb_false. intros _ _ _. apply Qle_trans.
Qed.

Lemma number_gt_trans (x y z : number) :
  py_gt z y = true → py_gt y x = true → py_gt z x = true.
Proof.
  destruct x as [p| | |], y as [q| | |], z as [r| | |]; cbn; try done.
  rewrite !Qgtb_true. intros Hqr Hpq. by apply Qlt_trans with q.
Qed.

Lemma number_not_gt_gt_trans (x y z : number) :
  not_nan x → py_gt x y = false → py_gt z y = true → py_gt z x = true.
Proof.
  unfold not_nan.
  destruct x as [p| | |], y as [q| | |], z as [r| | |]; cbn; try done.
  rewrite Qgtb_false, !Qgtb_true. intros _. apply Qle_lt_trans.
Qed.


Lemma number_eqb_of_not_gt (x y : number) :
  not_nan x → not_nan y →
  py_gt x y = false → py_gt y x = false → number_eqb x y = true.
Proof.
  unfold not_nan.
  destruct x as [p| | |], y as [q| | |]; cbn; try done.
  rewrite !Qgtb_false. intros _ _ Hpq Hqp.
  apply Qeq_bool_iff. by apply Qle_antisym.
Qed.




(** On the empty list the builtin raises [ValueError]. *)
Lemma find_max_price_empty : ∃ e, fst (find_max_price []) = Raise (ValueError e).
Proof. eexists. reflexivity. Qed.

End PriceFacts.

(** ** The store *)

(** Unfold one layer of the state-and-exception monad. *)
Ltac run_monad :=
  unfold mbind, Store.M_bind, mret, Store.M_ret, Store.lift, Store.try_except;
  cbv beta iota.

Section PathFacts.
Import Registry Store.

Lemma tmdb_path :
  dict_getitem tmdb_config "path" = Ok (VStr "data/processed/tmdb_embedded.parquet").
Proof. vm_compute. reflexivity. Qed.

Lemma airbnb_path :
  dict_getitem airbnb_config "path" = Ok (VStr "data/processed/airbnb_embedded.parquet").
Proof. vm_compute. reflexivity. Qed.

(** Every identifier resolves to one of the two configured paths. *)
Lemma config_path_cases (n : string) :
  ∃ config p,
    get_dataset_config n = Ok config
    ∧ dict_getitem config "path" = Ok (VStr p)
    ∧ (p = "data/processed/tmdb_embedded.parquet"
       ∨ p = "data/processed/airbnb_embedded.parquet").
Proof.
  destruct (get_dataset_config_cases n) as [E | E]; rewrite E.
  - eexists _, _. split; [reflexivity |]. split; [apply tmdb_path | by left].
  - eexists _, _. split; [reflexivity |]. split; [apply airbnb_path | by right].
Qed.

Lemma processed_path_cases (n : string) :
  ∃ config p,
    get_dataset_config n = Ok config
    ∧ dict_getitem config "path" = Ok (VStr p)
    ∧ processed_path n = Ok p
    ∧ dirname p = "data/processed".
Proof.
  destruct (config_path_cases n) as (config & p & Hc & Hp & Hcases).
  exists config, p. split; [exact Hc |]. split; [exact Hp |].
  unfold processed_path. rewrite Hc. simpl. rewrite Hp. simpl.
  split; [reflexivity |].
  destruct Hcases as [-> | ->]; vm_compute; reflexivity.
Qed.

Lemma splits_path_cases (n : string) :
  ∃ p, get_splits_path n = Ok p
       ∧ dirname p = "data/processed"
       ∧ (p = "data/processed/tmdb_embedded_splits.csv"
          ∨ p = "data/processed/airbnb_embedded_splits.csv").
Proof.
  unfold get_splits_path.
  destruct (config_path_cases n) as (config & p & -> & Hp & [-> | ->]);
    simpl; rewrite Hp; simpl; eexists; (split; [reflexivity |]).
  - split; [vm_compute; reflexivity | left; vm_compute; reflexivity].
  - split; [vm_compute; reflexivity | right; vm_compute; reflexivity].
Qed.

Lemma parents_data_processed :
  parents (S (String.length "data/processed")) "data/processed"
  = ["data/processed"; "data"].
Proof. vm_compute. reflexivity. Qed.

Lemma makedirs_data_processed (w : World) :
  makedirs "data/processed" w
  = (Ok (), set_dirs (λ ds, ds ∪ list_to_set ["data/processed"; "data"]) w).
Proof.
  unfold makedirs. cbn [nonempty]. rewrite parents_data_processed.
  reflexivity.
Qed.

Lemma get_dataset_config_tmdb : get_dataset_config "tmdb" = Ok tmdb_config.
Proof. rewrite get_dataset_config_unfold, DATASETS_lookup_tmdb. reflexivity. Qed.

Lemma processed_path_tmdb :
  processed_path "tmdb" = Ok "data/processed/tmdb_embedded.parquet".
Proof.
  unfold processed_path. rewrite get_dataset_config_tmdb. simpl.
  rewrite tmdb_path. reflexivity.
Qed.

Lemma get_splits_path_tmdb :
  get_splits_path "tmdb" = Ok "data/processed/tmdb_embedded_splits.csv".
Proof.
  unfold get_splits_path. rewrite get_dataset_config_tmdb. simpl.
  rewrite tmdb_path. vm_compute. reflexivity.
Qed.

(** C2: on the configured path of ["tmdb"] the derivation keeps the
    [_embedded] part of the name: [".parquet"] alone is replaced, so the
    result is [tmdb_embedded_splits.csv] and not the [tmdb_splits.csv]
    announced by the comment above the code. *)
Theorem get_splits_path_keeps_embedded :
  processed_path "tmdb" = Ok "data/processed/tmdb_embedded.parquet"
  ∧ get_splits_path "tmdb" = Ok "data/processed/tmdb_embedded_splits.csv"
  ∧ str_replace "data/processed/tmdb_embedded.parquet" ".parquet" "_splits.csv"
    = "data/processed/tmdb_embedded_splits.csv"
  ∧ get_splits_path "tmdb" ≠ Ok "data/processed/tmdb_splits.csv".
Proof.
  split; [| split; [exact get_splits_path_tmdb | split]].
  - exact processed_path_tmdb.
  - vm_compute. reflexivity.
  - rewrite get_splits_path_tmdb. discriminate.
Qed.

(** The derivation is a function of the configured path alone. *)
Lemma get_splits_path_of_processed_path (n : string) :
  get_splits_path n
  = (p ← processed_path n; mret (str_replace p ".parquet" "_splits.csv")).
Proof.
  unfold get_splits_path, processed_path.
  destruct (config_path_cases n) as (config & p & -> & Hp & _).
  simpl. rewrite Hp. reflexivity.
Qed.

Lemma has_column_of_columns_labelled (k : string) (df : DataFrame) :
  columns_labelled k (df_columns df) ≠ [] → has_column k df = true.
Proof.
  intros Hne. unfold has_column, labels. apply bool_decide_eq_true.
  destruct (columns_labelled k (df_columns df)) as [|c cs] eqn:E; [done |].
  assert (Hc : c ∈ columns_labelled k (df_columns df)).
  { rewrite E. by left. }
  unfold columns_labelled in Hc. apply list_elem_of_filter in Hc as [Hk Hin].
  apply list_elem_of_fmap. exists c. by split.
Qed.

Lemma columns_labelled_of_has_column (k : string) (df : DataFrame) :
  has_column k df = true → columns_labelled k (df_columns df) ≠ [].
Proof.
  unfold has_column, labels. intros Hin%bool_decide_eq_true.
  apply list_elem_of_fmap in Hin as (c & -> & Hc).
  assert (Hf : c ∈ columns_labelled c.1 (df_columns df)).
  { unfold columns_labelled. apply list_elem_of_filter. by split. }
  intros E. rewrite E in Hf. by apply not_elem_of_nil in Hf.
Qed.

(** With both labels present the selection succeeds and keeps the index. *)
Lemma getitem_id_split (df : DataFrame) :
  has_column "id" df = true → has_column "split" df = true →
  getitem_list df ["id"; "split"]
  = Ok (mkDataFrame (df_nrows df)
          (columns_labelled "id" (df_columns df)
           ++ columns_labelled "split" (df_columns df) ++ [])%list).
Proof.
  intros Hi%columns_labelled_of_has_column Hs%columns_labelled_of_has_column.
  unfold getitem_list. cbn [select_columns].
  destruct (columns_labelled "id" (df_columns df)) as [|ci cis]; [done |].
  destruct (columns_labelled "split" (df_columns df)) as [|cs css]; [done |].
  reflexivity.
Qed.

End PathFacts.

Section StoreFacts.
Import Registry Store.
Context `{Pandas}.

(** *** Saving splits *)

(** What [save_splits] does once its path is known. *)
Lemma save_splits_unfold (df : DataFrame) (name : option string) (w : World) :
  ∃ path,
    get_splits_path (default "tmdb" name) = Ok path
    ∧ dirname path = "data/processed"
    ∧ save_splits df name w
      = (let w1 := set_dirs (λ ds, ds ∪ list_to_set ["data/processed"; "data"]) w in
         if has_column "id" df && has_column "split" df
         then
           match getitem_list df ["id"; "split"] with
           | Ok projection =>
               (Ok (),
                set_stdout
                  (λ out, (out ++ ["✓ Split assignments saved to " +:+ path])%list)
                  (set_files (λ fs, <[path := to_csv_bytes projection false]> fs) w1))
           | Raise e => (Raise e, w1)
           end
         else
           (Ok (),
            set_stdout
              (λ out,
                 (out ++ ["Error: DataFrame must contain 'id' and 'split' columns to save splits."])%list)
              w1)).
Proof.
  destruct (splits_path_cases (default "tmdb" name)) as (path & Hp & Hd & _).
  exists path. split; [exact Hp |]. split; [exact Hd |].
  unfold save_splits. rewrite Hp. run_monad. rewrite Hd, makedirs_data_processed.
  cbv zeta. destruct (has_column "id" df && has_column "split" df); [| reflexivity].
  destruct (getitem_list df ["id"; "split"]); reflexivity.
Qed.

(** C3 (amended): when the table lacks the [id] column or the [split]
    column, [save_splits] returns normally after printing the error line,
    no file is created or changed, and the only change to the file system
    is that the directories [data/processed] and [data] exist. *)
Theorem save_splits_missing_columns
  (df : DataFrame) (name : option string) (w : World) :
  has_column "id" df = false ∨ has_column "split" df = false →
  ∃ w' : World,
    save_splits df name w = (Ok (), w')
    ∧ files w' = files w
    ∧ dirs w' = dirs w ∪ list_to_set ["data/processed"; "data"]
    ∧ stdout w'
      = (stdout w
         ++ ["Error: DataFrame must contain 'id' and 'split' columns to save splits."])%list
    ∧ st_errors w' = st_errors w
    ∧ hub_requests w' = hub_requests w.
Proof.
  intros Hlack.
  destruct (save_splits_unfold df name w) as (path & _ & _ & ->).
  assert (Hc : has_column "id" df && has_column "split" df = false).
  { destruct Hlack as [-> | ->]; [reflexivity | apply andb_false_r]. }
  rewrite Hc. cbv zeta. eexists. split; [reflexivity |]. repeat split.
Qed.

(** C4 (amended): when exactly one column is labelled [id] and exactly one
    is labelled [split], [save_splits] writes to the derived split path the
    serialization, without index, of the table made of these two columns in
    this order, with the row count of the input; no other file changes. *)
Theorem save_splits_writes_projection
  (df : DataFrame) (name : option string) (w : World) (ids splits : list cell) :
  columns_labelled "id" (df_columns df) = [("id", ids)] →
  columns_labelled "split" (df_columns df) = [("split", splits)] →
  ∃ (path : string) (w' : World),
    let projection := mkDataFrame (df_nrows df) [("id", ids); ("split", splits)] in
    get_splits_path (default "tmdb" name) = Ok path
    ∧ save_splits df name w = (Ok (), w')
    ∧ labels projection = ["id"; "split"]
    ∧ df_nrows projection = df_nrows df
    ∧ files w' = <[path := to_csv_bytes projection false]> (files w)
    ∧ stdout w' = (stdout w ++ ["✓ Split assignments saved to " +:+ path])%list.
Proof.
  intros Hid Hsplit.
  destruct (save_splits_unfold df name w) as (path & Hp & _ & ->).
  assert (Hi : has_column "id" df = true).
  { apply has_column_of_columns_labelled. by rewrite Hid. }
  assert (Hs : has_column "split" df = true).
  { apply has_column_of_columns_labelled. by rewrite Hsplit. }
  rewrite Hi, Hs, (getitem_id_split df Hi Hs), Hid, Hsplit. cbn [andb app].
  cbv zeta. eexists path, _. split; [exact Hp |]. split; [reflexivity |].
  repeat split.
Qed.

(** The directories after the call, whichever branch ran. *)
Lemma save_splits_dirs (df : DataFrame) (name : option string) (w : World) :
  dirs (save_splits df name w).2
  = dirs w ∪ list_to_set ["data/processed"; "data"].
Proof.
  destruct (save_splits_unfold df name w) as (path & _ & _ & ->). cbv zeta.
  destruct (has_column "id" df && has_column "split" df); [| reflexivity].
  destruct (getitem_list df ["id"; "split"]); reflexivity.
Qed.

(** C10: whatever the table, after [save_splits] the directory that
    contains the derived split path exists, together with its own parent;
    this holds on the error path too, where no file is written. *)
Theorem save_splits_creates_parent_dirs
  (df : DataFrame) (name : option string) (w : World) :
  ∃ path : string,
    get_splits_path (default "tmdb" name) = Ok path
    ∧ dirname path = "data/processed"
    ∧ dirname path ∈ dirs (save_splits df name w).2
    ∧ "data" ∈ dirs (save_splits df name w).2
    ∧ exists_at (save_splits df name w).2 (dirname path) = true
    ∧ (has_column "id" df && has_column "split" df = false →
       (save_splits df name w).1 = Ok ()
       ∧ files (save_splits df name w).2 = files w).
Proof.
  destruct (save_splits_unfold df name w) as (path & Hp & Hd & Hrun).
  exists path. split; [exact Hp |]. split; [exact Hd |]. rewrite Hd.
  assert (Hin : ∀ d, d ∈ ["data/processed"; "data"] →
                     d ∈ dirs (save_splits df name w).2).
  { intros d Hd'. rewrite save_splits_dirs.
    apply elem_of_union. right. by apply elem_of_list_to_set. }
  split; [apply Hin; by left |].
  split; [apply Hin; right; by left |].
  split.
  - unfold exists_at. apply orb_true_iff. right. apply bool_decide_eq_true.
    apply Hin. by left.
  - intros Hlack. rewrite Hrun, Hlack. split; reflexivity.
Qed.

(** *** Loading *)

Lemma load_processed_data_unfold (name : option string) (w : World) :
  ∃ path,
    processed_path (default "tmdb" name) = Ok path
    ∧ dirname path = "data/processed"
    ∧ load_processed_data name w
      = (if exists_at w path
         then
           match files w !! path with
           | Some content =>
               (df ← read_parquet_bytes content; mret (Some df), w)
           | None =>
               (df ← read_parquet_dataset (files_below path (files w));
                mret (Some df), w)
           end
         else (Ok None, w)).
Proof.
  destruct (processed_path_cases (default "tmdb" name))
    as (config & path & Hc & Hp & Hpp & Hd).
  exists path. split; [exact Hpp |]. split; [exact Hd |].
  unfold load_processed_data. rewrite Hc. run_monad. rewrite Hp. cbn [as_path].
  unfold path_exists. cbv beta iota.
  destruct (exists_at w path) eqn:Hex; [| reflexivity].
  unfold pd_read_parquet.
  destruct (files w !! path) as [content|] eqn:Hf.
  - destruct (read_parquet_bytes content); reflexivity.
  - unfold exists_at in Hex. rewrite Hf in Hex.
    rewrite bool_decide_eq_false_2 in Hex by (by intros [? ?]).
    cbn [orb] in Hex. rewrite Hex.
    destruct (read_parquet_dataset (files_below path (files w))); reflexivity.
Qed.

Lemma load_splits_unfold (name : option string) (w : World) :
  ∃ path,
    get_splits_path (default "tmdb" name) = Ok path
    ∧ load_splits name w
      = (if exists_at w path
         then
           match files w !! path with
           | Some content => (df ← read_csv_bytes content; mret (Some df), w)
           | None =>
               (Raise (IsADirectoryError ("[Errno 21] Is a directory: '" +:+ path +:+ "'")), w)
           end
         else (Ok None, w)).
Proof.
  destruct (splits_path_cases (default "tmdb" name)) as (path & Hp & _ & _).
  exists path. split; [exact Hp |].
  unfold load_splits. rewrite Hp. run_monad.
  unfold path_exists. cbv beta iota.
  destruct (exists_at w path) eqn:Hex; [| reflexivity].
  unfold pd_read_csv, read_file. run_monad.
  destruct (files w !! path) as [content|] eqn:Hf.
  - destruct (read_csv_bytes content); reflexivity.
  - unfold exists_at in Hex. rewrite Hf in Hex.
    rewrite bool_decide_eq_false_2 in Hex by (by intros [? ?]).
    cbn [orb] in Hex. rewrite Hex. reflexivity.
Qed.

(** C5: for every identifier (given or omitted), when nothing exists at the
    resolved processed path, [load_processed_data] returns [None] without
    raising and without touching the world, and likewise [load_splits] at
    the derived split path; [None] differs from every table, the zero-row
    ones included. *)
Theorem load_absent_returns_None (name : option string) (w : World) :
  ∃ processed splits : string,
    processed_path (default "tmdb" name) = Ok processed
    ∧ get_splits_path (default "tmdb" name) = Ok splits
    ∧ (exists_at w processed = false →
       load_processed_data name w = (Ok None, w))
    ∧ (exists_at w splits = false → load_splits name w = (Ok None, w))
    ∧ ∀ df : DataFrame,
        df_nrows df = 0%nat → (Ok (Some df) : result (option DataFrame)) ≠ Ok None.
Proof.
  destruct (load_processed_data_unfold name w) as (processed & Hp & _ & Hl).
  destruct (load_splits_unfold name w) as (splits & Hs & Hls).
  exists processed, splits. split; [exact Hp |]. split; [exact Hs |].
  split; [| split].
  - intros Hex. rewrite Hl, Hex. reflexivity.
  - intros Hex. rewrite Hls, Hex. reflexivity.
  - intros df _. discriminate.
Qed.

(** *** Raw acquisition *)

Lemma exists_at_file (w : World) (path : string) (content : list byte) :
  files w !! path = Some content → exists_at w path = true.
Proof.
  intros Hf. unfold exists_at. rewrite Hf.
  rewrite bool_decide_eq_true_2 by eauto. reflexivity.
Qed.

Lemma dirname_raw : dirname RAW_DATA_PATH = "data/raw".
Proof. vm_compute. reflexivity. Qed.

(** C6 (amended): [load_tmdb_raw] is cache-first.  (1) When the raw file
    exists, the outcome is that of [pd.read_csv] on its content, a table or
    the parser's exception, and the world is unchanged: no request goes to
    the hub.  (2) When nothing exists at the
    raw path and the pull raises [e], the call returns the empty table
    without raising, the failure is shown in an error box and printed, and
    no file or directory is created.  (3) When nothing exists at the raw
    path, the call returns a table whatever the hub answers. *)
Theorem load_tmdb_raw_cache_first (w : World) :
  (∀ content : list byte,
     files w !! RAW_DATA_PATH = Some content →
     load_tmdb_raw w = (read_csv_bytes content, w))
  ∧ (∀ e : exn,
       exists_at w RAW_DATA_PATH = false →
       hub w "AiresPucrs/tmdb-5000-movies" "train" = Raise e →
       ∃ w' : World,
         load_tmdb_raw w = (Ok empty_frame, w')
         ∧ st_errors w'
           = (st_errors w ++ ["Failed to download dataset: " +:+ str_of_exn e])%list
         ∧ stdout w'
           = (stdout w
              ++ ["Raw data not found locally.";
                  "Downloading TMDB 5000 dataset from Hugging Face...";
                  "Error details: " +:+ str_of_exn e])%list
         ∧ files w' = files w
         ∧ dirs w' = dirs w)
  ∧ (exists_at w RAW_DATA_PATH = false →
     ∃ (df : DataFrame) (w' : World), load_tmdb_raw w = (Ok df, w')).
Proof.
  split; [| split].
  - intros content Hf. unfold load_tmdb_raw, path_exists. run_monad.
    rewrite (exists_at_file _ _ _ Hf).
    unfold pd_read_csv, read_file. run_monad. rewrite Hf. reflexivity.
  - intros e Hex Hhub. unfold load_tmdb_raw, path_exists. run_monad.
    rewrite Hex. unfold print, load_dataset. cbn [hub set_stdout].
    rewrite Hhub. unfold st_error. eexists. split; [reflexivity |].
    cbn. rewrite <- !app_assoc. repeat split.
  - intros Hex. unfold load_tmdb_raw, path_exists. run_monad.
    rewrite Hex. unfold print, load_dataset. cbn [hub set_stdout].
    destruct (hub w "AiresPucrs/tmdb-5000-movies" "train") as [df | e].
    + rewrite dirname_raw. unfold makedirs. cbn [nonempty].
      unfold df_to_csv, write_file. eexists _, _. reflexivity.
    + unfold st_error. eexists _, _. reflexivity.
Qed.

(** *** Defaults *)

(** C9: each of the four store operations called without an identifier is
    the same computation as the call with ["tmdb"]. *)
Theorem dataset_name_defaults_to_tmdb (df : DataFrame) :
  save_processed_data df None = save_processed_data df (Some "tmdb")
  ∧ load_processed_data None = load_processed_data (Some "tmdb")
  ∧ save_splits df None = save_splits df (Some "tmdb")
  ∧ load_splits None = load_splits (Some "tmdb").
Proof. repeat split. Qed.

(** *** Saving then loading the processed table *)

(** X13: loading after saving decodes exactly the bytes that the Parquet
    encoder produced for the saved table; what the decoder makes of them is
    pandas' business. *)
Lemma load_after_save
  (df : DataFrame) (name : option string) (w : World) (content : list byte) :
  to_parquet_bytes df = Ok content →
  ∃ w' : World,
    save_processed_data df name w = (Ok (), w')
    ∧ load_processed_data name w'
      = (loaded ← read_parquet_bytes content; mret (Some loaded), w').
Proof.
  intros Henc.
  destruct (processed_path_cases (default "tmdb" name))
    as (config & path & Hc & Hp & Hpp & Hd).
  unfold save_processed_data. rewrite Hc. run_monad. rewrite Hp.
  cbn [as_path]. rewrite Hd, makedirs_data_processed.
  unfold df_to_parquet. run_monad. rewrite Henc. unfold write_file, print.
  eexists. split; [reflexivity |].
  match goal with |- load_processed_data name ?w1 = _ =>
    destruct (load_processed_data_unfold name w1) as (path' & Hpp' & _ & ->);
    assert (Hf : files w1 !! path = Some content) by (cbn; apply lookup_insert_eq)
  end.
  assert (path' = path) as -> by congruence.
  rewrite (exists_at_file _ _ _ Hf), Hf. reflexivity.
Qed.

End StoreFacts.

(** ** Examples on the sample machine *)

Section StoreExamples.
Import Registry Store Sample.

Lemma save_splits_missing_columns_witness :
  has_column "split" movies_without_split = false
  ∧ ∃ w' : World,
      save_splits movies_without_split None offline = (Ok (), w')
      ∧ files w' = files offline
      ∧ dirs w' = dirs offline ∪ list_to_set ["data/processed"; "data"]
      ∧ stdout w'
        = (stdout offline
           ++ ["Error: DataFrame must contain 'id' and 'split' columns to save splits."])%list
      ∧ st_errors w' = st_errors offline
      ∧ hub_requests w' = hub_requests offline.
Proof.
  split; [vm_compute; reflexivity |].
  apply (save_splits_missing_columns movies_without_split None offline).
  right. vm_compute. reflexivity.
Defined.

(** C3 (as stated) fails: on a machine with an empty disk, saving a table
    without a [split] column leaves the directory [data/processed] behind,
    so the file system is not what it was. *)
Lemma save_splits_error_path_changes_disk :
  has_column "split" movies_without_split = false
  ∧ exists_at offline "data/processed" = false
  ∧ exists_at (save_splits movies_without_split None offline).2 "data/processed" = true
  ∧ dirs (save_splits movies_without_split None offline).2 ≠ dirs offline.
Proof.
  destruct (save_splits_unfold movies_without_split None offline)
    as (path & _ & _ & ->).
  assert (Hin : "data/processed"
    ∈ dirs offline ∪ list_to_set (C := gset string) ["data/processed"; "data"]).
  { apply elem_of_union. right. apply elem_of_list_to_set. by left. }
  split; [vm_compute; reflexivity |]. split; [vm_compute; reflexivity |].
  replace (has_column "id" movies_without_split
           && has_column "split" movies_without_split) with false
    by (vm_compute; reflexivity).
  cbv zeta. cbn [snd set_stdout set_dirs dirs]. split.
  - unfold exists_at. apply orb_true_iff. right.
    apply bool_decide_eq_true. exact Hin.
  - intros Heq. rewrite Heq in Hin. cbn in Hin. by apply not_elem_of_empty in Hin.
Qed.

Lemma save_splits_writes_projection_witness :
  columns_labelled "id" (df_columns movies) = [("id", [CInt 11; CInt 12])]
  ∧ columns_labelled "split" (df_columns movies)
    = [("split", [CStr "train"; CStr "test"])]
  ∧ ∃ (path : string) (w' : World),
      get_splits_path "tmdb" = Ok path
      ∧ save_splits movies None offline = (Ok (), w')
      ∧ files w'
        = <[path := to_csv_bytes
                      (mkDataFrame 2
                         [("id", [CInt 11; CInt 12]);
                          ("split", [CStr "train"; CStr "test"])]) false]>
            (files offline).
Proof.
  assert (Hid : columns_labelled "id" (df_columns movies)
                = [("id", [CInt 11; CInt 12])]) by (vm_compute; reflexivity).
  assert (Hsplit : columns_labelled "split" (df_columns movies)
                   = [("split", [CStr "train"; CStr "test"])])
    by (vm_compute; reflexivity).
  split; [exact Hid |]. split; [exact Hsplit |].
  destruct (save_splits_writes_projection movies None offline _ _ Hid Hsplit)
    as (path & w' & Hp & Hs & _ & _ & Hf & _).
  exists path, w'. split; [exact Hp |]. split; [exact Hs | exact Hf].
Defined.

(** C4 (as stated) fails: a table with two columns labelled [id] has an
    [id] and a [split] column, yet the file written for it has the header
    [id,id,split]: it is not the serialization of any table whose columns
    are exactly [id] and [split]. *)
Lemma save_splits_duplicate_id_three_columns :
  has_column "id" movies_two_ids = true
  ∧ has_column "split" movies_two_ids = true
  ∧ string_of_list_byte
      <$> files (save_splits movies_two_ids None offline).2
          !! "data/processed/tmdb_embedded_splits.csv"
    = Some ("id,id,split" +:+ newline +:+ "11,21,train" +:+ newline
            +:+ "12,22,test" +:+ newline)
  ∧ ¬ ∃ projection : DataFrame,
        labels projection = ["id"; "split"]
        ∧ files (save_splits movies_two_ids None offline).2
            !! "data/processed/tmdb_embedded_splits.csv"
          = Some (to_csv_bytes projection false).
Proof.
  assert (Hfile :
    files (save_splits movies_two_ids None offline).2
      !! "data/processed/tmdb_embedded_splits.csv"
    = Some (list_byte_of_string (render_csv movies_two_ids))).
  { destruct (save_splits_unfold movies_two_ids None offline)
      as (path & Hp & _ & ->).
    assert (path = "data/processed/tmdb_embedded_splits.csv") as ->.
    { cbn [default] in Hp. rewrite get_splits_path_tmdb in Hp. congruence. }
    replace (has_column "id" movies_two_ids && has_column "split" movies_two_ids)
      with true by (vm_compute; reflexivity).
    replace (getitem_list movies_two_ids ["id"; "split"])
      with (Ok movies_two_ids) by (vm_compute; reflexivity).
    cbv zeta. cbn [snd set_stdout set_files set_dirs files].
    apply lookup_insert_eq. }
  split; [vm_compute; reflexivity |]. split; [vm_compute; reflexivity |].
  split.
  - rewrite Hfile. cbn [fmap option_fmap option_map].
    rewrite string_of_list_byte_of_string. vm_compute. reflexivity.
  - intros (projection & Hlabels & Hwritten). rewrite Hfile in Hwritten.
    injection Hwritten as Hbytes. revert Hbytes.
    cbn [to_csv_bytes plain_csv]. unfold render_csv. rewrite Hlabels.
    vm_compute. discriminate.
Qed.

Lemma load_absent_returns_None_witness :
  exists_at offline "data/processed/tmdb_embedded.parquet" = false
  ∧ exists_at offline "data/processed/tmdb_embedded_splits.csv" = false
  ∧ load_processed_data None offline = (Ok None, offline)
  ∧ load_splits None offline = (Ok None, offline).
Proof.
  destruct (load_absent_returns_None None offline)
    as (processed & splits & Hp & Hs & Hload & Hsplits & _).
  cbn [default] in Hp, Hs.
  rewrite processed_path_tmdb in Hp. rewrite get_splits_path_tmdb in Hs.
  injection Hp as <-. injection Hs as <-.
  assert (H1 : exists_at offline "data/processed/tmdb_embedded.parquet" = false)
    by (vm_compute; reflexivity).
  assert (H2 : exists_at offline "data/processed/tmdb_embedded_splits.csv" = false)
    by (vm_compute; reflexivity).
  split; [exact H1 |]. split; [exact H2 |].
  split; [exact (Hload H1) | exact (Hsplits H2)].
Defined.

Lemma load_tmdb_raw_cache_first_witness :
  files cached !! RAW_DATA_PATH = Some (list_byte_of_string raw_text)
  ∧ load_tmdb_raw cached
    = (Ok (mkDataFrame 1 [("id", [CStr "11"]); ("title", [CStr "Alien"])]), cached)
  ∧ exists_at offline RAW_DATA_PATH = false
  ∧ hub offline "AiresPucrs/tmdb-5000-movies" "train"
    = Raise (ConnectionError "hub unreachable")
  ∧ ∃ w' : World,
      load_tmdb_raw offline = (Ok empty_frame, w')
      ∧ st_errors w' = ["Failed to download dataset: hub unreachable"]
      ∧ files w' = files offline.
Proof.
  assert (Hfile : files cached !! RAW_DATA_PATH = Some (list_byte_of_string raw_text))
    by apply lookup_insert_eq.
  assert (Habsent : exists_at offline RAW_DATA_PATH = false)
    by (vm_compute; reflexivity).
  destruct (load_tmdb_raw_cache_first cached) as (Hhit & _ & _).
  destruct (load_tmdb_raw_cache_first offline) as (_ & Hmiss & _).
  split; [exact Hfile |]. split; [| split; [exact Habsent | split; [reflexivity |]]].
  - rewrite (Hhit _ Hfile). f_equal.
  - destruct (Hmiss (ConnectionError "hub unreachable") Habsent eq_refl)
      as (w' & Hrun & Herr & _ & Hfiles & _).
    exists w'. split; [exact Hrun |]. split; [exact Herr | exact Hfiles].
Defined.

Lemma save_splits_creates_parent_dirs_witness :
  has_column "id" movies_without_split && has_column "split" movies_without_split = false
  ∧ ("data/processed" ∉ dirs offline)
  ∧ "data/processed" ∈ dirs (save_splits movies_without_split None offline).2
  ∧ (save_splits movies_without_split None offline).1 = Ok ()
  ∧ files (save_splits movies_without_split None offline).2 = files offline.
Proof.
  assert (Hlack : has_column "id" movies_without_split
                  && has_column "split" movies_without_split = false)
    by (vm_compute; reflexivity).
  destruct (save_splits_creates_parent_dirs movies_without_split None offline)
    as (path & _ & Hd & Hin & _ & _ & Herr).
  rewrite Hd in Hin. destruct (Herr Hlack) as [Hok Hfiles].
  split; [exact Hlack |]. split; [apply not_elem_of_empty |].
  split; [exact Hin |]. split; [exact Hok | exact Hfiles].
Defined.

End StoreExamples.

(** * Further properties *)

(** ** More on the maximum *)

Section FirstMaximum.
Import Lab0.
Context {A : Type} `{PyOrd A}.

Variable ordered : A → Prop.
Hypothesis gt_trans :
  ∀ x y z : A, py_gt z y = true → py_gt y x = true → py_gt z x = true.
Hypothesis not_gt_gt_trans :
  ∀ x y z : A, ordered x → py_gt x y = false → py_gt z y = true → py_gt z x = true.

(** The loop stops on an item that nothing after it exceeds; when the items
    are ordered it is the first of the greatest: everything before it is
    strictly smaller. *)
Lemma max_loop_first (maxitem : A) (items : list A) :
  ∃ pre post : list A,
    maxitem :: items = (pre ++ max_loop maxitem items :: post)%list
    ∧ Forall (λ x, py_gt x (max_loop maxitem items) = false) post
    ∧ (Forall ordered (maxitem :: items) →
       Forall (λ x, py_gt (max_loop maxitem items) x = true) pre).
Proof.
  revert maxitem. induction items as [|item items IH]; intros maxitem.
  - exists [], []. repeat split; constructor.
  - cbn [max_loop]. destruct (py_gt item maxitem) eqn:Hgt.
    + destruct (IH item) as (pre & post & Hsplit & Hpost & Hpre).
      exists (maxitem :: pre), post. split; [cbn; by rewrite Hsplit |].
      split; [exact Hpost |]. intros Hord.
      apply Forall_cons in Hord as [_ Hord]. specialize (Hpre Hord).
      constructor; [| exact Hpre].
      destruct pre as [|p pre].
      * injection Hsplit as <- _. exact Hgt.
      * injection Hsplit as <- _. apply Forall_cons in Hpre as [Hp _].
        by apply gt_trans with item.
    + destruct (IH maxitem) as (pre & post & Hsplit & Hpost & Hpre).
      destruct pre as [|p pre].
      * injection Hsplit as Hmax Hitems.
        exists [], (item :: post). split; [cbn; by rewrite <- Hmax, Hitems |].
        split; [| intros _; constructor].
        constructor; [by rewrite <- Hmax | exact Hpost].
      * injection Hsplit as <- Hitems.
        exists (maxitem :: item :: pre), post.
        split; [cbn; by rewrite <- Hitems |]. split; [exact Hpost |].
        intros Hord. apply Forall_cons in Hord as [Hm Hord].
        apply Forall_cons in Hord as [Hi Hord].
        assert (Hpre' : Forall (λ x, py_gt (max_loop maxitem items) x = true)
                          (maxitem :: pre)) by (apply Hpre; by constructor).
        apply Forall_cons in Hpre' as [Hp Hpre'].
        constructor; [exact Hp |]. constructor; [| exact Hpre'].
        by apply not_gt_gt_trans with maxitem.
Qed.

End FirstMaximum.

Section MorePriceFacts.
Import Lab0.



(** X20: no price after the result is greater than it, whatever the list
    holds; when no price is NaN, every price before the result is strictly
    smaller, so that among equal greatest prices the first one is
    returned. *)
Theorem find_max_price_first_maximal (prices : list number) (m : number) :
  (find_max_price prices).1 = Ok m →
  ∃ pre post : list number,
    prices = (pre ++ m :: post)%list
    ∧ Forall (λ x, py_gt x m = false) post
    ∧ (Forall (λ x, is_nan x = false) prices →
       Forall (λ x, py_gt m x = true) pre).
Proof.
  destruct prices as [|first rest]; [discriminate |]. cbn. intros [= <-].
  apply max_loop_first.
  - apply number_gt_trans.
  - apply number_not_gt_gt_trans.
Qed.

Lemma find_max_price_first_maximal_witness :
  (find_max_price [Finite (1 # 2); Finite (3 # 4); Finite (6 # 8); Finite (1 # 3)]).1
  = Ok (Finite (3 # 4))
  ∧ ∃ pre post : list number,
      [Finite (1 # 2); Finite (3 # 4); Finite (6 # 8); Finite (1 # 3)]
      = (pre ++ Finite (3 # 4) :: post)%list
      ∧ Forall (λ x, py_gt x (Finite (3 # 4)) = false) post
      ∧ (Forall (λ x, is_nan x = false)
           [Finite (1 # 2); Finite (3 # 4); Finite (6 # 8); Finite (1 # 3)] →
         Forall (λ x, py_gt (Finite (3 # 4)) x = true) pre).
Proof.
  split; [reflexivity |].
  apply (find_max_price_first_maximal
           [Finite (1 # 2); Finite (3 # 4); Finite (6 # 8); Finite (1 # 3)]
           (Finite (3 # 4))).
  reflexivity.
Defined.

(** X21: when no price is NaN the maximum does not depend on the order of
    the list: two orderings of the same prices give results that are equal
    as numbers ([==]). *)
Theorem find_max_price_permutation (prices prices' : list number) (m m' : number) :
  Forall (λ x, is_nan x = false) prices →
  Permutation prices prices' →
  (find_max_price prices).1 = Ok m →
  (find_max_price prices').1 = Ok m' →
  number_eqb m m' = true.
Proof.
  intros Hnum Hperm Hm Hm'.
  assert (Hnum' : Forall (λ x, is_nan x = false) prices')
    by (by rewrite <- Hperm).
  destruct prices as [|a l]; [discriminate |].
  destruct prices' as [|a' l']; [discriminate |].
  cbn in Hm, Hm'. injection Hm as <-. injection Hm' as <-.
  assert (Hin : In (max_loop a l) (a' :: l')).
  { eapply Permutation_in; [exact Hperm | apply max_loop_In]. }
  assert (Hin' : In (max_loop a' l') (a :: l)).
  { eapply Permutation_in; [symmetry; exact Hperm | apply max_loop_In]. }
  assert (Hup : ∀ b k x, Forall not_nan (b :: k) → In x (b :: k) →
                         py_gt x (max_loop b k) = false).
  { intros b k x Hord Hx. apply max_loop_upper with (ordered := not_nan); auto.
    - intros ? ? _ _. apply number_gt_asym.
    - apply number_not_gt_trans. }
  apply number_eqb_of_not_gt.
  - eapply Forall_forall; [exact Hnum |]. apply list_elem_of_In, max_loop_In.
  - eapply Forall_forall; [exact Hnum' |]. apply list_elem_of_In, max_loop_In.
  - by apply Hup.
  - by apply Hup.
Qed.

Lemma find_max_price_permutation_witness :
  Forall (λ x, is_nan x = false) [Finite (1 # 2); Finite (3 # 4); Finite (6 # 8)]
  ∧ Permutation [Finite (1 # 2); Finite (3 # 4); Finite (6 # 8)]
      [Finite (6 # 8); Finite (1 # 2); Finite (3 # 4)]
  ∧ (find_max_price [Finite (1 # 2); Finite (3 # 4); Finite (6 # 8)]).1
    = Ok (Finite (3 # 4))
  ∧ (find_max_price [Finite (6 # 8); Finite (1 # 2); Finite (3 # 4)]).1
    = Ok (Finite (6 # 8))
  ∧ number_eqb (Finite (3 # 4)) (Finite (6 # 8)) = true.
Proof.
  assert (Hnum : Forall (λ x, is_nan x = false)
                   [Finite (1 # 2); Finite (3 # 4); Finite (6 # 8)])
    by (repeat constructor).
  assert (Hperm : Permutation [Finite (1 # 2); Finite (3 # 4); Finite (6 # 8)]
                    [Finite (6 # 8); Finite (1 # 2); Finite (3 # 4)]).
  { change ([Finite (1 # 2); Finite (3 # 4); Finite (6 # 8)])
      with ([Finite (1 # 2); Finite (3 # 4)] ++ [Finite (6 # 8)])%list.
    apply Permutation_app_comm. }
  split; [exact Hnum |]. split; [exact Hperm |].
  split; [reflexivity |]. split; [reflexivity |].
  exact (find_max_price_permutation _ _ _ _ Hnum Hperm eq_refl eq_refl).
Defined.

End MorePriceFacts.

(** ** More on the registry and the paths *)

Section MoreRegistryFacts.
Import Registry Store.

(** X1: the record returned is always one of the registry's own: the
    identifier's record when the identifier is registered, the record of
    ["tmdb"] otherwise. *)
Theorem get_dataset_config_registered (name : string) :
  ∃ (key : string) (config : gmap string pyval),
    DATASETS !! key = Some config
    ∧ get_dataset_config name = Ok config
    ∧ (∀ own, DATASETS !! name = Some own → key = name ∧ config = own)
    ∧ (DATASETS !! name = None → key = "tmdb").
Proof.
  rewrite get_dataset_config_unfold.
  destruct (DATASETS !! name) as [own|] eqn:E.
  - exists name, own. split; [exact E |]. split; [reflexivity |].
    split; [intros ? [= <-]; done | discriminate].
  - exists "tmdb", tmdb_config. split; [apply DATASETS_lookup_tmdb |].
    split; [reflexivity |]. split; [discriminate | done].
Qed.

Lemma get_dataset_config_registered_witness :
  get_dataset_config "airbnb" = Ok airbnb_config.
Proof.
  destruct (get_dataset_config_registered "airbnb")
    as (key & config & _ & Hget & Hown & _).
  destruct (Hown _ DATASETS_lookup_airbnb) as [_ ->]. exact Hget.
Defined.

Lemma processed_path_values (n p : string) :
  processed_path n = Ok p →
  p = "data/processed/tmdb_embedded.parquet"
  ∨ p = "data/processed/airbnb_embedded.parquet".
Proof.
  unfold processed_path.
  destruct (config_path_cases n) as (config & p' & -> & Hp & Hcases).
  simpl. rewrite Hp. simpl. intros [= <-]. exact Hcases.
Qed.

Lemma splits_path_values (n s : string) :
  get_splits_path n = Ok s →
  s = "data/processed/tmdb_embedded_splits.csv"
  ∨ s = "data/processed/airbnb_embedded_splits.csv".
Proof.
  destruct (splits_path_cases n) as (s' & -> & _ & Hcases).
  intros [= <-]. exact Hcases.
Qed.

(** A processed path is never a split path, nor one of the directories
    that the store creates. *)
Lemma processed_path_apart (n n' p s : string) :
  processed_path n = Ok p → get_splits_path n' = Ok s →
  p ≠ s ∧ (p ∉ ["data/processed"; "data"]) ∧ (s ∉ ["data/processed"; "data"]).
Proof.
  intros Hp Hs.
  destruct (processed_path_values _ _ Hp) as [-> | ->];
    destruct (splits_path_values _ _ Hs) as [-> | ->];
    (split; [done |]); split; intros Hin;
    repeat (apply elem_of_cons in Hin as [Hin | Hin]; [done |]);
    by apply not_elem_of_nil in Hin.
Qed.

(** X3: for every identifier the split path is the processed path with its
    [.parquet] extension replaced by [_splits.csv]: the stem, directory
    included, is kept, and the two paths differ. *)
Theorem split_path_replaces_extension (name : string) :
  ∃ stem : string,
    processed_path name = Ok (stem +:+ ".parquet")
    ∧ get_splits_path name = Ok (stem +:+ "_splits.csv")
    ∧ dirname (stem +:+ "_splits.csv") = dirname (stem +:+ ".parquet")
    ∧ stem +:+ "_splits.csv" ≠ stem +:+ ".parquet".
Proof.
  rewrite get_splits_path_of_processed_path.
  destruct (processed_path_cases name) as (config & p & _ & _ & Hp & _).
  destruct (processed_path_values name p Hp) as [-> | ->]; rewrite Hp.
  - exists "data/processed/tmdb_embedded".
    split; [reflexivity |]. split; [vm_compute; reflexivity |].
    split; [vm_compute; reflexivity | vm_compute; discriminate].
  - exists "data/processed/airbnb_embedded".
    split; [reflexivity |]. split; [vm_compute; reflexivity |].
    split; [vm_compute; reflexivity | vm_compute; discriminate].
Qed.

End MoreRegistryFacts.

(** ** More on the store *)

Section MoreStoreFacts.
Import Registry Store.
Context `{Pandas}.

(** What [save_processed_data] does once its path is known. *)
Lemma save_processed_data_unfold
  (df : DataFrame) (name : option string) (w : World) :
  ∃ path,
    processed_path (default "tmdb" name) = Ok path
    ∧ save_processed_data df name w
      = (let w1 := set_dirs (λ ds, ds ∪ list_to_set ["data/processed"; "data"]) w in
         match to_parquet_bytes df with
         | Ok content =>
             (Ok (),
              set_stdout
                (λ out, (out ++ ["✓ Processed data saved to " +:+ path])%list)
                (set_files (λ fs, <[path := content]> fs) w1))
         | Raise e => (Raise e, w1)
         end).
Proof.
  destruct (processed_path_cases (default "tmdb" name))
    as (config & path & Hc & Hp & Hpp & Hd).
  exists path. split; [exact Hpp |].
  unfold save_processed_data. rewrite Hc. run_monad. rewrite Hp.
  cbn [as_path]. rewrite Hd, makedirs_data_processed.
  unfold df_to_parquet. run_monad.
  destruct (to_parquet_bytes df); reflexivity.
Qed.

(** X2: an identifier that is not registered is an alias of ["tmdb"] for
    the whole store: the same paths, and the same reads and writes. *)
Theorem unknown_identifier_aliases_tmdb (name : string) (df : DataFrame) :
  DATASETS !! name = None →
  get_splits_path name = get_splits_path "tmdb"
  ∧ save_processed_data df (Some name) = save_processed_data df None
  ∧ load_processed_data (Some name) = load_processed_data None
  ∧ save_splits df (Some name) = save_splits df None
  ∧ load_splits (Some name) = load_splits None.
Proof.
  intros Hnone.
  assert (Hc : get_dataset_config name = get_dataset_config "tmdb").
  { rewrite !get_dataset_config_unfold, Hnone, DATASETS_lookup_tmdb. reflexivity. }
  assert (Hs : get_splits_path name = get_splits_path "tmdb").
  { unfold get_splits_path. by rewrite Hc. }
  split; [exact Hs |].
  unfold save_processed_data, load_processed_data, save_splits, load_splits.
  cbv zeta. cbv [default from_option id]. rewrite Hc, Hs. repeat split.
Qed.

Lemma columns_labelled_nil (k : string) (df : DataFrame) :
  has_column k df = false → columns_labelled k (df_columns df) = [].
Proof.
  intros Hno.
  destruct (columns_labelled k (df_columns df)) as [|c cs] eqn:E; [done |].
  rewrite has_column_of_columns_labelled in Hno; [done | by rewrite E].
Qed.

(** X4: the column test of [save_splits] is exact for the selection it
    guards: [df[["id", "split"]]] succeeds when the test passes and raises
    [KeyError] when it fails, so [save_splits] lets no [KeyError] escape. *)
Theorem save_splits_guard_is_exact
  (df : DataFrame) (name : option string) (w : World) :
  (has_column "id" df && has_column "split" df = true →
   ∃ projection, getitem_list df ["id"; "split"] = Ok projection)
  ∧ (has_column "id" df && has_column "split" df = false →
     ∃ msg, getitem_list df ["id"; "split"] = Raise (KeyError msg))
  ∧ ∀ msg, (save_splits df name w).1 ≠ Raise (KeyError msg).
Proof.
  split; [| split].
  - intros [Hi Hs]%andb_true_iff. rewrite (getitem_id_split df Hi Hs). eauto.
  - intros Hlack. unfold getitem_list. cbn [select_columns].
    destruct (has_column "id" df) eqn:Hi.
    + cbn [andb] in Hlack.
      apply columns_labelled_of_has_column in Hi.
      destruct (columns_labelled "id" (df_columns df)) as [|c cs]; [done |].
      rewrite (columns_labelled_nil _ _ Hlack). eexists. reflexivity.
    + rewrite (columns_labelled_nil _ _ Hi). eexists. reflexivity.
  - intros msg.
    destruct (save_splits_unfold df name w) as (path & _ & _ & ->). cbv zeta.
    destruct (has_column "id" df) eqn:Hi; [| done].
    destruct (has_column "split" df) eqn:Hs; [| done].
    rewrite (getitem_id_split df Hi Hs). done.
Qed.

(** X5: when the table has both labels, the file written at the split path
    is the serialization, without index, of [df[["id", "split"]]]: the
    columns labelled [id] followed by those labelled [split], taken whole
    from the input, and nothing else. *)
Theorem save_splits_writes_selection
  (df : DataFrame) (name : option string) (w : World) :
  has_column "id" df = true → has_column "split" df = true →
  ∃ (path : string) (projection : DataFrame) (w' : World),
    get_splits_path (default "tmdb" name) = Ok path
    ∧ getitem_list df ["id"; "split"] = Ok projection
    ∧ save_splits df name w = (Ok (), w')
    ∧ files w' = <[path := to_csv_bytes projection false]> (files w)
    ∧ df_nrows projection = df_nrows df
    ∧ df_columns projection
      = (columns_labelled "id" (df_columns df)
         ++ columns_labelled "split" (df_columns df))%list
    ∧ (∀ c, c ∈ df_columns projection
            ↔ c ∈ df_columns df ∧ (c.1 = "id" ∨ c.1 = "split")).
Proof.
  intros Hi Hs.
  destruct (save_splits_unfold df name w) as (path & Hp & _ & ->).
  rewrite Hi, Hs, (getitem_id_split df Hi Hs), app_nil_r. cbn [andb]. cbv zeta.
  eexists path, _, _. split; [exact Hp |]. split; [reflexivity |].
  split; [reflexivity |]. split; [reflexivity |]. split; [reflexivity |].
  split; [reflexivity |]. intros c. cbn [df_columns].
  rewrite elem_of_app. unfold columns_labelled. rewrite !list_elem_of_filter.
  tauto.
Qed.

(** The files after [save_splits], away from the split path. *)
Lemma save_splits_other_files
  (df : DataFrame) (name : option string) (w : World) (path p : string) :
  get_splits_path (default "tmdb" name) = Ok path → p ≠ path →
  files (save_splits df name w).2 !! p = files w !! p.
Proof.
  intros Hp Hne.
  destruct (save_splits_unfold df name w) as (path' & Hp' & _ & ->).
  assert (path' = path) as -> by congruence. cbv zeta.
  destruct (has_column "id" df && has_column "split" df); [| reflexivity].
  destruct (getitem_list df ["id"; "split"]); [| reflexivity].
  cbn. by rewrite lookup_insert_ne.
Qed.

(** X6: [save_splits] changes no file but the one at the split path; in
    particular the processed table of every dataset stays as it is.  It
    shows nothing in an error box and sends nothing to the hub. *)
Theorem save_splits_changes_only_split_file
  (df : DataFrame) (name : option string) (w : World) :
  ∃ path : string,
    get_splits_path (default "tmdb" name) = Ok path
    ∧ (∀ p, p ≠ path → files (save_splits df name w).2 !! p = files w !! p)
    ∧ (∀ n processed, processed_path n = Ok processed →
         files (save_splits df name w).2 !! processed = files w !! processed)
    ∧ st_errors (save_splits df name w).2 = st_errors w
    ∧ hub_requests (save_splits df name w).2 = hub_requests w.
Proof.
  destruct (save_splits_unfold df name w) as (path & Hp & _ & Hrun).
  exists path. split; [exact Hp |].
  split; [intros p Hne; by apply save_splits_other_files with path |].
  split.
  - intros n processed Hpp. apply save_splits_other_files with path; [exact Hp |].
    by destruct (processed_path_apart _ _ _ _ Hpp Hp) as [Hne _].
  - rewrite Hrun. cbv zeta.
    destruct (has_column "id" df && has_column "split" df); [| by split].
    destruct (getitem_list df ["id"; "split"]); by split.
Qed.

(** X7: when the Parquet encoder accepts the table, [save_processed_data]
    returns normally, the file at the configured path holds the encoded
    table whatever was there before, the directories [data/processed] and
    [data] exist, and the success line is printed. *)
Theorem save_processed_data_success
  (df : DataFrame) (name : option string) (w : World) (content : list byte) :
  to_parquet_bytes df = Ok content →
  ∃ (path : string) (w' : World),
    processed_path (default "tmdb" name) = Ok path
    ∧ save_processed_data df name w = (Ok (), w')
    ∧ files w' = <[path := content]> (files w)
    ∧ dirs w' = dirs w ∪ list_to_set ["data/processed"; "data"]
    ∧ stdout w' = (stdout w ++ ["✓ Processed data saved to " +:+ path])%list
    ∧ st_errors w' = st_errors w
    ∧ hub_requests w' = hub_requests w.
Proof.
  intros Henc.
  destruct (save_processed_data_unfold df name w) as (path & Hp & ->).
  rewrite Henc. cbv zeta. eexists path, _. split; [exact Hp |].
  split; [reflexivity |]. repeat split.
Qed.


(** X9: a second save for the same identifier overwrites the first: the
    files are those of the second save alone. *)
Theorem save_processed_data_overwrites
  (df1 df2 : DataFrame) (name : option string) (w : World)
  (content1 content2 : list byte) :
  to_parquet_bytes df1 = Ok content1 →
  to_parquet_bytes df2 = Ok content2 →
  ∃ path : string,
    processed_path (default "tmdb" name) = Ok path
    ∧ files (save_processed_data df2 name (save_processed_data df1 name w).2).2
      = files (save_processed_data df2 name w).2
    ∧ files (save_processed_data df2 name (save_processed_data df1 name w).2).2
        !! path = Some content2.
Proof.
  intros Henc1 Henc2.
  destruct (save_processed_data_unfold df1 name w) as (path & Hp & ->).
  rewrite Henc1. cbv zeta. cbn [snd].
  match goal with |- context [save_processed_data df2 name ?w1] =>
    destruct (save_processed_data_unfold df2 name w1) as (path1 & Hp1 & ->)
  end.
  destruct (save_processed_data_unfold df2 name w) as (path2 & Hp2 & ->).
  assert (path1 = path) as -> by congruence.
  assert (path2 = path) as -> by congruence.
  rewrite Henc2. cbv zeta. cbn. exists path. split; [exact Hp |].
  split; [apply insert_insert_eq | apply lookup_insert_eq].
Qed.

(** X10: the two loaders only read: the world after the call is the world
    before it, so a second load in a row returns what the first returned. *)
Theorem loads_are_read_only (name : option string) (w : World) :
  (load_processed_data name w).2 = w
  ∧ (load_splits name w).2 = w
  ∧ (load_processed_data name (load_processed_data name w).2).1
    = (load_processed_data name w).1
  ∧ (load_splits name (load_splits name w).2).1 = (load_splits name w).1.
Proof.
  assert (Hp : (load_processed_data name w).2 = w).
  { destruct (load_processed_data_unfold name w) as (path & _ & _ & ->).
    destruct (exists_at w path); [| reflexivity].
    destruct (files w !! path); reflexivity. }
  assert (Hs : (load_splits name w).2 = w).
  { destruct (load_splits_unfold name w) as (path & _ & ->).
    destruct (exists_at w path); [| reflexivity].
    destruct (files w !! path); reflexivity. }
  rewrite Hp, Hs. repeat split.
Qed.

(** X11: a loader returns [None] exactly when nothing, neither a file nor a
    directory, exists at its path. *)
Theorem load_None_iff_absent (name : option string) (w : World) :
  ∃ processed splits : string,
    processed_path (default "tmdb" name) = Ok processed
    ∧ get_splits_path (default "tmdb" name) = Ok splits
    ∧ ((load_processed_data name w).1 = Ok None ↔ exists_at w processed = false)
    ∧ ((load_splits name w).1 = Ok None ↔ exists_at w splits = false).
Proof.
  destruct (load_processed_data_unfold name w) as (processed & Hp & _ & ->).
  destruct (load_splits_unfold name w) as (splits & Hs & ->).
  exists processed, splits. split; [exact Hp |]. split; [exact Hs |]. split.
  - destruct (exists_at w processed); [| done].
    destruct (files w !! processed) as [content|].
    + destruct (read_parquet_bytes content); done.
    + destruct (read_parquet_dataset (files_below processed (files w))); done.
  - destruct (exists_at w splits); [| done].
    destruct (files w !! splits) as [content|]; [| done].
    destruct (read_csv_bytes content); done.
Qed.

(** X12: after [save_splits] on a table with both labels, [load_splits]
    for the same identifier decodes exactly the bytes written for
    [df[["id", "split"]]]. *)
Theorem load_splits_after_save_splits
  (df : DataFrame) (name : option string) (w : World) :
  has_column "id" df = true → has_column "split" df = true →
  ∃ (projection : DataFrame) (w' : World),
    getitem_list df ["id"; "split"] = Ok projection
    ∧ save_splits df name w = (Ok (), w')
    ∧ load_splits name w'
      = (loaded ← read_csv_bytes (to_csv_bytes projection false);
         mret (Some loaded), w').
Proof.
  intros Hi Hs.
  destruct (save_splits_unfold df name w) as (path & Hp & _ & ->).
  rewrite Hi, Hs, (getitem_id_split df Hi Hs). cbn [andb]. cbv zeta.
  eexists _, _. split; [reflexivity |]. split; [reflexivity |].
  match goal with |- load_splits name ?w1 = _ =>
    destruct (load_splits_unfold name w1) as (path' & Hp' & ->);
    assert (path' = path) as -> by congruence;
    assert (Hf : files w1 !! path
                 = Some (to_csv_bytes
                           (mkDataFrame (df_nrows df)
                              (columns_labelled "id" (df_columns df)
                               ++ columns_labelled "split" (df_columns df) ++ [])%list)
                           false))
      by (cbn; apply lookup_insert_eq)
  end.
  rewrite (exists_at_file _ _ _ Hf), Hf. reflexivity.
Qed.

(** The loaders see only their own path. *)
Lemma exists_at_agrees (w w' : World) (p : string) :
  files w' !! p = files w !! p → (p ∈ dirs w' ↔ p ∈ dirs w) →
  exists_at w' p = exists_at w p.
Proof.
  intros Hf Hd. unfold exists_at. rewrite Hf. f_equal.
  by apply bool_decide_ext.
Qed.

Lemma load_processed_data_agrees (name : option string) (w w' : World) :
  (∀ p, processed_path (default "tmdb" name) = Ok p →
        files w' !! p = files w !! p
        ∧ (p ∈ dirs w' ↔ p ∈ dirs w)
        ∧ files_below p (files w') = files_below p (files w)) →
  (load_processed_data name w').1 = (load_processed_data name w).1.
Proof.
  intros Hsame.
  destruct (load_processed_data_unfold name w) as (p & Hp & _ & ->).
  destruct (load_processed_data_unfold name w') as (p' & Hp' & _ & ->).
  assert (p' = p) as -> by congruence.
  destruct (Hsame p Hp) as (Hf & Hd & Hbelow).
  rewrite (exists_at_agrees w w' p Hf Hd), Hf, Hbelow.
  destruct (exists_at w p); [| reflexivity].
  destruct (files w !! p); reflexivity.
Qed.

(** A write at a path that does not lie below a directory leaves the
    files below that directory as they were. *)
Lemma files_below_insert
  (dir k : string) (v : list byte) (fs : gmap string (list byte)) :
  String.prefix (dir ++ "/") k = false →
  files_below dir (<[k := v]> fs) = files_below dir fs.
Proof.
  intros Hout. unfold files_below. apply map_filter_insert_not.
  intros y. cbn. by rewrite Hout.
Qed.

Lemma save_splits_files_below
  (df : DataFrame) (name : option string) (w : World) (n p : string) :
  processed_path n = Ok p →
  files_below p (files (save_splits df name w).2) = files_below p (files w).
Proof.
  intros Hp.
  destruct (save_splits_unfold df name w) as (s & Hs & _ & ->). cbv zeta.
  destruct (has_column "id" df && has_column "split" df); [| reflexivity].
  destruct (getitem_list df ["id"; "split"]); [| reflexivity].
  cbn. apply files_below_insert.
  destruct (processed_path_values _ _ Hp) as [-> | ->];
    destruct (splits_path_values _ _ Hs) as [-> | ->]; vm_compute; reflexivity.
Qed.

Lemma save_processed_data_files_below
  (df : DataFrame) (name : option string) (w : World) (n p : string) :
  processed_path n = Ok p →
  files_below p (files (save_processed_data df name w).2) = files_below p (files w).
Proof.
  intros Hp.
  destruct (save_processed_data_unfold df name w) as (q & Hq & ->). cbv zeta.
  destruct (to_parquet_bytes df); [| reflexivity].
  cbn. apply files_below_insert.
  destruct (processed_path_values _ _ Hp) as [-> | ->];
    destruct (processed_path_values _ _ Hq) as [-> | ->]; vm_compute; reflexivity.
Qed.

Lemma load_splits_agrees (name : option string) (w w' : World) :
  (∀ p, get_splits_path (default "tmdb" name) = Ok p →
        files w' !! p = files w !! p ∧ (p ∈ dirs w' ↔ p ∈ dirs w)) →
  (load_splits name w').1 = (load_splits name w).1.
Proof.
  intros Hsame.
  destruct (load_splits_unfold name w) as (p & Hp & ->).
  destruct (load_splits_unfold name w') as (p' & Hp' & ->).
  assert (p' = p) as -> by congruence.
  destruct (Hsame p Hp) as [Hf Hd].
  rewrite (exists_at_agrees w w' p Hf Hd), Hf.
  destruct (exists_at w p); [| reflexivity].
  destruct (files w !! p); reflexivity.
Qed.

Lemma save_processed_data_dirs
  (df : DataFrame) (name : option string) (w : World) :
  dirs (save_processed_data df name w).2
  = dirs w ∪ list_to_set ["data/processed"; "data"].
Proof.
  destruct (save_processed_data_unfold df name w) as (path & _ & ->).
  cbv zeta. destruct (to_parquet_bytes df); reflexivity.
Qed.

Lemma save_processed_data_other_files
  (df : DataFrame) (name : option string) (w : World) (path p : string) :
  processed_path (default "tmdb" name) = Ok path → p ≠ path →
  files (save_processed_data df name w).2 !! p = files w !! p.
Proof.
  intros Hp Hne.
  destruct (save_processed_data_unfold df name w) as (path' & Hp' & ->).
  assert (path' = path) as -> by congruence. cbv zeta.
  destruct (to_parquet_bytes df); [| reflexivity].
  cbn. by rewrite lookup_insert_ne.
Qed.

Lemma created_dirs_apart (ds : gset string) (p : string) :
  p ∉ ["data/processed"; "data"] →
  p ∈ ds ∪ list_to_set ["data/processed"; "data"] ↔ p ∈ ds.
Proof.
  intros Hout. rewrite elem_of_union, elem_of_list_to_set. tauto.
Qed.

(** X14: split files and processed tables do not interfere: saving splits
    for any identifier leaves the result of [load_processed_data] for every
    identifier as it was, and saving a processed table leaves the result
    of [load_splits] as it was. *)
Theorem splits_and_processed_do_not_interfere
  (df : DataFrame) (name name' : option string) (w : World) :
  (load_processed_data name' (save_splits df name w).2).1
  = (load_processed_data name' w).1
  ∧ (load_splits name' (save_processed_data df name w).2).1
    = (load_splits name' w).1.
Proof.
  destruct (splits_path_cases (default "tmdb" name)) as (s & Hs & _ & _).
  destruct (processed_path_cases (default "tmdb" name))
    as (? & q & _ & _ & Hq & _).
  split.
  - apply load_processed_data_agrees. intros p Hp.
    destruct (processed_path_apart _ _ _ _ Hp Hs) as (Hne & Hout & _).
    split; [by apply save_splits_other_files with s |].
    split; [| by apply save_splits_files_below with (default "tmdb" name')].
    rewrite save_splits_dirs. by apply created_dirs_apart.
  - apply load_splits_agrees. intros p Hp.
    destruct (processed_path_apart _ _ _ _ Hq Hp) as (Hne & _ & Hout).
    split; [by apply save_processed_data_other_files with q |].
    rewrite save_processed_data_dirs. by apply created_dirs_apart.
Qed.

(** X15: saving the processed table of one dataset leaves what
    [load_processed_data] returns for a dataset with another path as it
    was. *)
Theorem save_processed_data_other_dataset
  (df : DataFrame) (name name' : option string) (w : World) (p p' : string) :
  processed_path (default "tmdb" name) = Ok p →
  processed_path (default "tmdb" name') = Ok p' →
  p ≠ p' →
  (load_processed_data name' (save_processed_data df name w).2).1
  = (load_processed_data name' w).1.
Proof.
  intros Hp Hp' Hne. apply load_processed_data_agrees. intros p'' Hp''.
  assert (p'' = p') as -> by congruence.
  destruct (splits_path_cases "tmdb") as (s & Hs & _ & _).
  destruct (processed_path_apart _ _ _ _ Hp' Hs) as (_ & Hout & _).
  split; [by apply save_processed_data_other_files with p |].
  split; [| by apply save_processed_data_files_below with (default "tmdb" name')].
  rewrite save_processed_data_dirs. by apply created_dirs_apart.
Qed.

(** *** Raw acquisition, further *)

Lemma parents_data_raw :
  parents (S (String.length "data/raw")) "data/raw" = ["data/raw"; "data"].
Proof. vm_compute. reflexivity. Qed.

(** The three outcomes of [load_tmdb_raw]: cache hit, download, failed
    download. *)
Lemma load_tmdb_raw_unfold (w : World) :
  load_tmdb_raw w
  = if exists_at w RAW_DATA_PATH
    then
      match files w !! RAW_DATA_PATH with
      | Some content => (read_csv_bytes content, w)
      | None =>
          (Raise (IsADirectoryError
                    ("[Errno 21] Is a directory: '" +:+ RAW_DATA_PATH +:+ "'")), w)
      end
    else
      let out :=
        (stdout w
         ++ ["Raw data not found locally.";
             "Downloading TMDB 5000 dataset from Hugging Face..."])%list in
      let requests :=
        (hub_requests w ++ [("AiresPucrs/tmdb-5000-movies", "train")])%list in
      match hub w "AiresPucrs/tmdb-5000-movies" "train" with
      | Ok df =>
          (Ok df,
           mkWorld (<[RAW_DATA_PATH := to_csv_bytes df false]> (files w))
             (dirs w ∪ list_to_set ["data/raw"; "data"])
             (out ++ ["✓ Dataset downloaded and cached to " +:+ RAW_DATA_PATH])%list
             (st_errors w) (hub w) requests)
      | Raise e =>
          (Ok empty_frame,
           mkWorld (files w) (dirs w)
             (out ++ ["Error details: " +:+ str_of_exn e])%list
             (st_errors w ++ ["Failed to download dataset: " +:+ str_of_exn e])%list
             (hub w) requests)
      end.
Proof.
  unfold load_tmdb_raw, path_exists. run_monad.
  destruct (exists_at w RAW_DATA_PATH) eqn:Hex.
  - unfold pd_read_csv, read_file. run_monad.
    destruct (files w !! RAW_DATA_PATH) as [content|] eqn:Hf.
    + destruct (read_csv_bytes content); reflexivity.
    + unfold exists_at in Hex. rewrite Hf in Hex.
      rewrite bool_decide_eq_false_2 in Hex by (by intros [? ?]).
      cbn [orb] in Hex. rewrite Hex. reflexivity.
  - unfold print, load_dataset. cbn [hub set_stdout]. cbv zeta.
    destruct (hub w "AiresPucrs/tmdb-5000-movies" "train") as [df | e].
    + rewrite dirname_raw. unfold makedirs. cbn [nonempty].
      rewrite parents_data_raw. unfold df_to_csv, write_file.
      unfold set_stdout, set_files, set_dirs, set_hub_requests. cbn.
      rewrite <- !app_assoc. reflexivity.
    + unfold st_error.
      unfold set_stdout, set_st_errors, set_hub_requests. cbn.
      rewrite <- !app_assoc. reflexivity.
Qed.

(** X16: when nothing exists at the raw path and the hub answers with a
    table, [load_tmdb_raw] returns that table, caches its CSV form (without
    index) at the raw path, creates [data/raw] and [data], sends exactly
    one request and shows no error. *)
Theorem load_tmdb_raw_download (w : World) (df : DataFrame) :
  exists_at w RAW_DATA_PATH = false →
  hub w "AiresPucrs/tmdb-5000-movies" "train" = Ok df →
  ∃ w' : World,
    load_tmdb_raw w = (Ok df, w')
    ∧ files w' = <[RAW_DATA_PATH := to_csv_bytes df false]> (files w)
    ∧ dirs w' = dirs w ∪ list_to_set ["data/raw"; "data"]
    ∧ hub_requests w'
      = (hub_requests w ++ [("AiresPucrs/tmdb-5000-movies", "train")])%list
    ∧ st_errors w' = st_errors w
    ∧ stdout w'
      = (stdout w
         ++ ["Raw data not found locally.";
             "Downloading TMDB 5000 dataset from Hugging Face...";
             "✓ Dataset downloaded and cached to " +:+ RAW_DATA_PATH])%list.
Proof.
  intros Hex Hhub. rewrite load_tmdb_raw_unfold, Hex, Hhub. cbv zeta.
  eexists. split; [reflexivity |]. cbn. rewrite <- !app_assoc. repeat split.
Qed.

(** X17: after a successful download the next call is a cache hit: it
    decodes the bytes cached by the first call, leaves the world as it is
    and sends no second request. *)
Theorem load_tmdb_raw_second_call_cached (w : World) (df : DataFrame) :
  exists_at w RAW_DATA_PATH = false →
  hub w "AiresPucrs/tmdb-5000-movies" "train" = Ok df →
  load_tmdb_raw (load_tmdb_raw w).2
  = (read_csv_bytes (to_csv_bytes df false), (load_tmdb_raw w).2)
  ∧ hub_requests (load_tmdb_raw (load_tmdb_raw w).2).2
    = (hub_requests w ++ [("AiresPucrs/tmdb-5000-movies", "train")])%list.
Proof.
  intros Hex Hhub.
  assert (Hfirst : ∃ w1, (load_tmdb_raw w).2 = w1
            ∧ files w1 !! RAW_DATA_PATH = Some (to_csv_bytes df false)
            ∧ hub_requests w1
              = (hub_requests w ++ [("AiresPucrs/tmdb-5000-movies", "train")])%list).
  { rewrite load_tmdb_raw_unfold, Hex, Hhub. cbv zeta. eexists.
    split; [reflexivity |]. split; [apply lookup_insert_eq | reflexivity]. }
  destruct Hfirst as (w1 & -> & Hf & Hreq).
  rewrite load_tmdb_raw_unfold, (exists_at_file _ _ _ Hf), Hf.
  split; [reflexivity | exact Hreq].
Qed.

(** X18: [load_tmdb_raw] sends a request to the hub exactly when nothing
    exists at the raw path, and then a single one; it changes no file other
    than the raw file. *)
Theorem load_tmdb_raw_requests (w : World) :
  hub_requests (load_tmdb_raw w).2
  = (hub_requests w
     ++ (if exists_at w RAW_DATA_PATH then []
         else [("AiresPucrs/tmdb-5000-movies", "train")]))%list
  ∧ ∀ p : string, p ≠ RAW_DATA_PATH →
      files (load_tmdb_raw w).2 !! p = files w !! p.
Proof.
  rewrite load_tmdb_raw_unfold. split.
  - destruct (exists_at w RAW_DATA_PATH).
    + rewrite app_nil_r. destruct (files w !! RAW_DATA_PATH); reflexivity.
    + cbv zeta.
      destruct (hub w "AiresPucrs/tmdb-5000-movies" "train"); reflexivity.
  - intros p Hne. destruct (exists_at w RAW_DATA_PATH).
    + destruct (files w !! RAW_DATA_PATH); reflexivity.
    + cbv zeta.
      destruct (hub w "AiresPucrs/tmdb-5000-movies" "train"); [| reflexivity].
      cbn. by rewrite lookup_insert_ne.
Qed.

(** X22: a failed download caches nothing: the raw path is still empty
    afterwards, so the next call asks the hub again and, when the hub fails
    again, shows a second error. *)
Theorem load_tmdb_raw_failed_pull_retried (w : World) (e : exn) :
  exists_at w RAW_DATA_PATH = false →
  hub w "AiresPucrs/tmdb-5000-movies" "train" = Raise e →
  exists_at (load_tmdb_raw w).2 RAW_DATA_PATH = false
  ∧ (load_tmdb_raw (load_tmdb_raw w).2).1 = Ok empty_frame
  ∧ hub_requests (load_tmdb_raw (load_tmdb_raw w).2).2
    = (hub_requests w
       ++ [("AiresPucrs/tmdb-5000-movies", "train");
           ("AiresPucrs/tmdb-5000-movies", "train")])%list
  ∧ st_errors (load_tmdb_raw (load_tmdb_raw w).2).2
    = (st_errors w
       ++ ["Failed to download dataset: " +:+ str_of_exn e;
           "Failed to download dataset: " +:+ str_of_exn e])%list.
Proof.
  intros Hex Hhub.
  assert (Hfirst : ∃ w1, (load_tmdb_raw w).2 = w1
            ∧ exists_at w1 RAW_DATA_PATH = false
            ∧ hub w1 = hub w
            ∧ hub_requests w1
              = (hub_requests w ++ [("AiresPucrs/tmdb-5000-movies", "train")])%list
            ∧ st_errors w1
              = (st_errors w ++ ["Failed to download dataset: " +:+ str_of_exn e])%list).
  { rewrite load_tmdb_raw_unfold, Hex, Hhub. cbv zeta. eexists.
    split; [reflexivity |]. split; [exact Hex |]. repeat split. }
  destruct Hfirst as (w1 & -> & Hex1 & Hhub1 & Hreq & Herr).
  split; [exact Hex1 |].
  rewrite load_tmdb_raw_unfold, Hex1, Hhub1, Hhub. cbv zeta. cbn.
  rewrite Hreq, Herr, <- !app_assoc. repeat split.
Qed.


End MoreStoreFacts.

(** ** Further examples on the sample machines *)

Section MoreStoreExamples.
Import Registry Store Sample.

Lemma processed_path_airbnb :
  processed_path "airbnb" = Ok "data/processed/airbnb_embedded.parquet".
Proof.
  unfold processed_path.
  rewrite get_dataset_config_unfold, DATASETS_lookup_airbnb. simpl.
  rewrite airbnb_path. reflexivity.
Qed.

Lemma unknown_identifier_aliases_tmdb_witness :
  DATASETS !! "books" = None
  ∧ get_splits_path "books" = get_splits_path "tmdb"
  ∧ save_processed_data movies (Some "books") = save_processed_data movies None
  ∧ load_processed_data (Some "books") = load_processed_data None.
Proof.
  assert (Hb : DATASETS !! "books" = None) by (by apply DATASETS_lookup_other).
  destruct (unknown_identifier_aliases_tmdb "books" movies Hb)
    as (Hs & Hsave & Hload & _).
  split; [exact Hb |]. split; [exact Hs |]. split; [exact Hsave | exact Hload].
Defined.

Lemma save_splits_writes_selection_witness :
  has_column "id" movies_two_ids = true
  ∧ has_column "split" movies_two_ids = true
  ∧ ∃ (path : string) (w' : World),
      get_splits_path "tmdb" = Ok path
      ∧ getitem_list movies_two_ids ["id"; "split"] = Ok movies_two_ids
      ∧ save_splits movies_two_ids None offline = (Ok (), w')
      ∧ files w' = <[path := to_csv_bytes movies_two_ids false]> (files offline).
Proof.
  assert (Hi : has_column "id" movies_two_ids = true) by (vm_compute; reflexivity).
  assert (Hs : has_column "split" movies_two_ids = true) by (vm_compute; reflexivity).
  split; [exact Hi |]. split; [exact Hs |].
  destruct (save_splits_writes_selection movies_two_ids None offline Hi Hs)
    as (path & projection & w' & Hp & Hsel & Hrun & Hfiles & _).
  assert (Hall : getitem_list movies_two_ids ["id"; "split"] = Ok movies_two_ids)
    by (vm_compute; reflexivity).
  assert (projection = movies_two_ids) as -> by congruence.
  exists path, w'. split; [exact Hp |]. split; [exact Hall |].
  split; [exact Hrun | exact Hfiles].
Defined.

Lemma save_splits_changes_only_split_file_witness :
  RAW_DATA_PATH ≠ "data/processed/tmdb_embedded_splits.csv"
  ∧ files (save_splits movies None cached).2 !! RAW_DATA_PATH
    = files cached !! RAW_DATA_PATH
  ∧ files (save_splits movies None cached).2 !! "data/processed/tmdb_embedded.parquet"
    = files cached !! "data/processed/tmdb_embedded.parquet".
Proof.
  destruct (save_splits_changes_only_split_file movies None cached)
    as (path & Hp & Hother & Hprocessed & _).
  cbn [default] in Hp. rewrite get_splits_path_tmdb in Hp. injection Hp as <-.
  assert (Hne : RAW_DATA_PATH ≠ "data/processed/tmdb_embedded_splits.csv") by done.
  split; [exact Hne |]. split; [exact (Hother _ Hne) |].
  exact (Hprocessed "tmdb" _ processed_path_tmdb).
Defined.

Lemma save_processed_data_success_witness :
  to_parquet_bytes movies = Ok (list_byte_of_string (render_csv movies))
  ∧ ∃ (path : string) (w' : World),
      processed_path "tmdb" = Ok path
      ∧ save_processed_data movies None offline = (Ok (), w')
      ∧ files w' = <[path := list_byte_of_string (render_csv movies)]> (files offline).
Proof.
  assert (Henc : to_parquet_bytes movies
                 = Ok (list_byte_of_string (render_csv movies))) by reflexivity.
  split; [exact Henc |].
  destruct (save_processed_data_success movies None offline _ Henc)
    as (path & w' & Hp & Hrun & Hfiles & _).
  exists path, w'. split; [exact Hp |]. split; [exact Hrun | exact Hfiles].
Defined.


Lemma save_processed_data_overwrites_witness :
  ∃ path : string,
    processed_path "tmdb" = Ok path
    ∧ files (save_processed_data movies_without_split None
               (save_processed_data movies None offline).2).2
      = files (save_processed_data movies_without_split None offline).2
    ∧ files (save_processed_data movies_without_split None
               (save_processed_data movies None offline).2).2 !! path
      = Some (list_byte_of_string (render_csv movies_without_split)).
Proof.
  assert (Henc1 : to_parquet_bytes movies
                  = Ok (list_byte_of_string (render_csv movies))) by reflexivity.
  assert (Henc2 : to_parquet_bytes movies_without_split
                  = Ok (list_byte_of_string (render_csv movies_without_split)))
    by reflexivity.
  exact (save_processed_data_overwrites movies movies_without_split None offline
           _ _ Henc1 Henc2).
Defined.

Lemma load_None_iff_absent_witness :
  exists_at offline "data/processed/tmdb_embedded.parquet" = false
  ∧ (load_processed_data None offline).1 = Ok None
  ∧ exists_at cached RAW_DATA_PATH = true.
Proof.
  destruct (load_None_iff_absent None offline)
    as (processed & splits & Hp & _ & Hiff & _).
  cbn [default] in Hp. rewrite processed_path_tmdb in Hp. injection Hp as <-.
  assert (Habsent : exists_at offline "data/processed/tmdb_embedded.parquet" = false)
    by (vm_compute; reflexivity).
  split; [exact Habsent |]. split; [by apply Hiff | vm_compute; reflexivity].
Defined.

Lemma load_splits_after_save_splits_witness :
  has_column "id" movies = true
  ∧ has_column "split" movies = true
  ∧ ∃ (projection : DataFrame) (w' : World),
      getitem_list movies ["id"; "split"] = Ok projection
      ∧ save_splits movies None offline = (Ok (), w')
      ∧ load_splits None w'
        = (loaded ← read_csv_bytes (to_csv_bytes projection false);
           mret (Some loaded), w').
Proof.
  assert (Hi : has_column "id" movies = true) by (vm_compute; reflexivity).
  assert (Hs : has_column "split" movies = true) by (vm_compute; reflexivity).
  split; [exact Hi |]. split; [exact Hs |].
  exact (load_splits_after_save_splits movies None offline Hi Hs).
Defined.

Lemma load_after_save_witness :
  to_parquet_bytes movies = Ok (list_byte_of_string (render_csv movies))
  ∧ ∃ w' : World,
      save_processed_data movies None offline = (Ok (), w')
      ∧ load_processed_data None w'
        = (loaded ← read_parquet_bytes (list_byte_of_string (render_csv movies));
           mret (Some loaded), w').
Proof.
  assert (Henc : to_parquet_bytes movies
                 = Ok (list_byte_of_string (render_csv movies))) by reflexivity.
  split; [exact Henc |].
  exact (load_after_save movies None offline _ Henc).
Defined.

Lemma save_processed_data_other_dataset_witness :
  processed_path "airbnb" = Ok "data/processed/airbnb_embedded.parquet"
  ∧ processed_path "tmdb" = Ok "data/processed/tmdb_embedded.parquet"
  ∧ (load_processed_data None
       (save_processed_data movies (Some "airbnb") offline).2).1
    = (load_processed_data None offline).1.
Proof.
  split; [exact processed_path_airbnb |]. split; [exact processed_path_tmdb |].
  apply (save_processed_data_other_dataset movies (Some "airbnb") None offline
           _ _ processed_path_airbnb processed_path_tmdb).
  discriminate.
Defined.

Lemma load_tmdb_raw_download_witness :
  exists_at online RAW_DATA_PATH = false
  ∧ ∃ w' : World,
      load_tmdb_raw online = (Ok movies, w')
      ∧ files w' = <[RAW_DATA_PATH := to_csv_bytes movies false]> (files online)
      ∧ hub_requests w' = [("AiresPucrs/tmdb-5000-movies", "train")].
Proof.
  assert (Habsent : exists_at online RAW_DATA_PATH = false)
    by (vm_compute; reflexivity).
  split; [exact Habsent |].
  destruct (load_tmdb_raw_download (H := plain_csv) online movies Habsent eq_refl)
    as (w' & Hrun & Hfiles & _ & Hreq & _).
  exists w'. split; [exact Hrun |]. split; [exact Hfiles | exact Hreq].
Defined.

Lemma load_tmdb_raw_second_call_cached_witness :
  exists_at online RAW_DATA_PATH = false
  ∧ hub_requests (load_tmdb_raw (load_tmdb_raw online).2).2
    = [("AiresPucrs/tmdb-5000-movies", "train")].
Proof.
  assert (Habsent : exists_at online RAW_DATA_PATH = false)
    by (vm_compute; reflexivity).
  split; [exact Habsent |].
  destruct (load_tmdb_raw_second_call_cached (H := plain_csv) online movies
              Habsent eq_refl)
    as [_ Hreq].
  exact Hreq.
Defined.

Lemma load_tmdb_raw_requests_witness :
  "data/processed/tmdb_embedded.parquet" ≠ RAW_DATA_PATH
  ∧ files (load_tmdb_raw online).2 !! "data/processed/tmdb_embedded.parquet"
    = files online !! "data/processed/tmdb_embedded.parquet".
Proof.
  assert (Hne : "data/processed/tmdb_embedded.parquet" ≠ RAW_DATA_PATH) by done.
  split; [exact Hne |].
  destruct (load_tmdb_raw_requests online) as [_ Hframe].
  exact (Hframe _ Hne).
Defined.

Lemma load_tmdb_raw_failed_pull_retried_witness :
  exists_at offline RAW_DATA_PATH = false
  ∧ exists_at (load_tmdb_raw offline).2 RAW_DATA_PATH = false
  ∧ hub_requests (load_tmdb_raw (load_tmdb_raw offline).2).2
    = [("AiresPucrs/tmdb-5000-movies", "train");
       ("AiresPucrs/tmdb-5000-movies", "train")].
Proof.
  assert (Habsent : exists_at offline RAW_DATA_PATH = false)
    by (vm_compute; reflexivity).
  split; [exact Habsent |].
  destruct (load_tmdb_raw_failed_pull_retried (H := plain_csv) offline
              (ConnectionError "hub unreachable") Habsent eq_refl)
    as (Hstill & _ & Hreq & _).
  split; [exact Hstill | exact Hreq].
Defined.


End MoreStoreExamples.

Section SaveSplitsOutput.
Import Registry Store.
Context `{Pandas}.

(** X24: each call of [save_splits] prints exactly one line: the success
    line with the split path when both labels are present, the error line
    otherwise. *)
Theorem save_splits_prints_one_line
  (df : DataFrame) (name : option string) (w : World) :
  ∃ path : string,
    get_splits_path (default "tmdb" name) = Ok path
    ∧ stdout (save_splits df name w).2
      = (stdout w
         ++ [if has_column "id" df && has_column "split" df
             then "✓ Split assignments saved to " +:+ path
             else "Error: DataFrame must contain 'id' and 'split' columns to save splits."])%list.
Proof.
  destruct (save_splits_unfold df name w) as (path & Hp & _ & ->).
  exists path. split; [exact Hp |]. cbv zeta.
  destruct (has_column "id" df) eqn:Hi; [| reflexivity].
  destruct (has_column "split" df) eqn:Hs; [| reflexivity].
  rewrite (getitem_id_split df Hi Hs). reflexivity.
Qed.

End SaveSplitsOutput.

(** ** The round trip of the processed table *)

Section RoundTrip.
Import Registry Store.
Context `{Pandas}.

(** C7: with a Parquet writer and reader that preserve tables, saving a
    table with [save_processed_data] and loading it back with
    [load_processed_data] for the same identifier, nothing being written in
    between, returns the table that was saved: the same columns, the same
    row count and the same cells, embedding vectors bit for bit. *)
Theorem save_then_load_round_trip
  (df : DataFrame) (name : option string) (w : World) :
  parquet_round_trips H →
  ∃ (w' : World) (loaded : DataFrame),
    save_processed_data df name w = (Ok (), w')
    ∧ load_processed_data name w' = (Ok (Some loaded), w')
    ∧ loaded = df
    ∧ labels loaded = labels df
    ∧ df_nrows loaded = df_nrows df
    ∧ ∀ k : string,
        columns_labelled k (df_columns loaded) = columns_labelled k (df_columns df).
Proof.
  intros Hlaw. destruct (Hlaw df) as (content & Henc & Hdec).
  destruct (save_processed_data_unfold df name w) as (path & Hp & ->).
  rewrite Henc. cbv zeta. eexists _, df. split; [reflexivity |].
  split; [| by repeat split].
  match goal with |- load_processed_data name ?w1 = _ =>
    destruct (load_processed_data_unfold name w1) as (path' & Hp' & _ & ->);
    assert (Hf : files w1 !! path = Some content) by (cbn; apply lookup_insert_eq)
  end.
  assert (path' = path) as -> by congruence.
  rewrite (exists_at_file _ _ _ Hf), Hf, Hdec. reflexivity.
Qed.

End RoundTrip.

Section MoreExamples.
Import Registry Store Sample.

Lemma positive_of_bytes_of_positive (p : positive) :
  positive_of_bytes (bytes_of_positive p) = p.
Proof. induction p as [p IH | p IH |]; cbn; by rewrite ?IH. Qed.

(** The exact writer of the sample satisfies the round-trip law. *)
Lemma exact_parquet_round_trips : parquet_round_trips exact_parquet.
Proof.
  intros df. eexists. split; [reflexivity |]. cbn.
  by rewrite positive_of_bytes_of_positive, decode_encode.
Qed.

Lemma save_then_load_round_trip_witness :
  parquet_round_trips exact_parquet
  ∧ ∃ w' : World,
      save_processed_data (H := exact_parquet) embedded_movies None offline
      = (Ok (), w')
      ∧ load_processed_data (H := exact_parquet) None w'
        = (Ok (Some embedded_movies), w').
Proof.
  split; [exact exact_parquet_round_trips |].
  destruct (save_then_load_round_trip (H := exact_parquet)
              embedded_movies None offline exact_parquet_round_trips)
    as (w' & loaded & Hsave & Hload & -> & _).
  exists w'. split; [exact Hsave | exact Hload].
Defined.

(** C6 (as stated) fails: with an empty file cached at the raw path the
    call is not total: [pd.read_csv], which is outside the [try], raises,
    and so does [load_tmdb_raw]. *)
Lemma load_tmdb_raw_empty_cache_raises :
  files empty_cache !! RAW_DATA_PATH = Some []
  ∧ load_tmdb_raw empty_cache
    = (Raise (ParserError "No columns to parse from file"), empty_cache).
Proof.
  assert (Hf : files empty_cache !! RAW_DATA_PATH = Some [])
    by apply lookup_insert_eq.
  split; [exact Hf |].
  rewrite load_tmdb_raw_unfold, (exists_at_file _ _ _ Hf), Hf. reflexivity.
Qed.

Lemma save_splits_guard_is_exact_witness :
  has_column "id" movies_without_split
  && has_column "split" movies_without_split = false
  ∧ (∃ msg, getitem_list movies_without_split ["id"; "split"]
            = Raise (KeyError msg))
  ∧ (save_splits movies_without_split None offline).1
    ≠ Raise (KeyError "['split'] not in index").
Proof.
  assert (Hlack : has_column "id" movies_without_split
                  && has_column "split" movies_without_split = false)
    by (vm_compute; reflexivity).
  destruct (save_splits_guard_is_exact movies_without_split None offline)
    as (_ & Hraise & Hnone).
  split; [exact Hlack |]. split; [exact (Hraise Hlack) | apply Hnone].
Defined.

End MoreExamples.
